(** * Movie financial analysis: the script [main.py], embedded and verified

    The script is one straight-line pandas pipeline.  Each stage is embedded
    below as a function on a row-oriented table; the numbers are IEEE 754
    binary64 values, the arithmetic that numpy and Python use. *)

From Stdlib Require Import ZArith List String Ascii Bool Lia.
From Stdlib Require Import Floats.SpecFloat.
From Stdlib Require Import Permutation Sorted.
Import ListNotations.

Local Open Scope Z_scope.

(** ** binary64 numbers *)

Module Float64.

Definition prec : Z := 53.
Definition emax : Z := 1024.

Definition float : Type := spec_float.

Definition nan : float := S754_nan.
Definition pos_inf : float := S754_infinity false.
Definition neg_inf : float := S754_infinity true.

Definition add : float -> float -> float := SFadd prec emax.
Definition sub : float -> float -> float := SFsub prec emax.
Definition mul : float -> float -> float := SFmul prec emax.
Definition div : float -> float -> float := SFdiv prec emax.

(** Conversion of an integer, rounding to nearest even ([float(n)],
    and numpy's cast of an int64 to float64). *)
Definition of_Z (n : Z) : float := binary_normalize prec emax n 0 false.

(** The value [m * 10^e] rounded once to nearest even: the number a
    decimal literal denotes. *)
Definition of_decimal (neg : bool) (m : Z) (e : Z) : float :=
  match m with
  | Zpos p =>
      match e with
      | Zneg k => div (S754_finite neg p 0) (S754_finite false (10 ^ k)%positive 0)
      | _ => binary_normalize prec emax (cond_Zopp neg (m * 10 ^ e)) 0 false
      end
  | _ => S754_zero neg
  end.

Definition is_nan (x : float) : bool :=
  match x with S754_nan => true | _ => false end.

Definition is_finite (x : float) : bool :=
  match x with S754_zero _ | S754_finite _ _ _ => true | _ => false end.

(** Comparisons; each is false as soon as one side is NaN. *)
Definition ltb (x y : float) : bool := SFltb x y.
Definition leb (x y : float) : bool := SFleb x y.
Definition eqb (x y : float) : bool := SFeqb x y.
Definition gtb (x y : float) : bool := SFltb y x.

Definition zero : float := S754_zero false.

End Float64.

Definition float : Type := Float64.float.

(** ** Exceptions *)

Inductive exn : Type :=
| ValueError (msg : string)
| KeyError (label : nat).

Inductive result (A : Type) : Type :=
| Ok (a : A)
| Raise (e : exn).

Arguments Ok {A} a.
Arguments Raise {A} e.

Definition bind {A B : Type} (r : result A) (k : A -> result B) : result B :=
  match r with
  | Ok a => k a
  | Raise e => Raise e
  end.

Notation "x <- r ;; k" := (bind r (fun x => k))
  (at level 61, r at next level, right associativity).

(** [mapM f l] runs [f] over [l] from the left and stops at the first
    exception, as a vectorised conversion does. *)
Fixpoint mapM {A B : Type} (f : A -> result B) (l : list A) : result (list B) :=
  match l with
  | [] => Ok []
  | a :: l' => b <- f a ;; bs <- mapM f l' ;; Ok (b :: bs)
  end.

(** ** Text *)

Module Unicode.

(** A text is held as its UTF-8 encoding, the form in which the data
    file stores it.  [decode] gives its code points, and [None] for bytes
    that are the encoding of no text: a stray or missing continuation
    byte, an encoding longer than needed, a surrogate or a value past
    [U+10FFFF]. *)
Definition continuation (b : N) : bool := ((128 <=? b) && (b <? 192))%N.

Fixpoint decode (s : list N) : option (list N) :=
  match s with
  | [] => Some []
  | b0 :: s1 =>
      if (b0 <? 128)%N then option_map (cons b0) (decode s1)
      else if ((194 <=? b0) && (b0 <? 224))%N then
        match s1 with
        | b1 :: s2 =>
            if continuation b1
            then option_map (cons ((b0 - 192) * 64 + (b1 - 128))%N) (decode s2)
            else None
        | _ => None
        end
      else if ((224 <=? b0) && (b0 <? 240))%N then
        match s1 with
        | b1 :: b2 :: s3 =>
            let c := ((b0 - 224) * 4096 + (b1 - 128) * 64 + (b2 - 128))%N in
            if continuation b1 && continuation b2 && (2048 <=? c)%N
               && negb ((55296 <=? c) && (c <? 57344))%N
            then option_map (cons c) (decode s3)
            else None
        | _ => None
        end
      else if ((240 <=? b0) && (b0 <? 245))%N then
        match s1 with
        | b1 :: b2 :: b3 :: s4 =>
            let c := ((b0 - 240) * 262144 + (b1 - 128) * 4096
                      + (b2 - 128) * 64 + (b3 - 128))%N in
            if continuation b1 && continuation b2 && continuation b3
               && (65536 <=? c)%N && (c <? 1114112)%N
            then option_map (cons c) (decode s4)
            else None
        | _ => None
        end
      else None
  end.

Definition code_points (s : string) : option (list N) :=
  decode (map N_of_ascii (list_ascii_of_string s)).

(** [str.isspace] of one code point: the characters of bidirectional
    type WS, B or S and of category Zs. *)
Definition is_space (c : N) : bool :=
  (((9 <=? c) && (c <=? 13)) || ((28 <=? c) && (c <=? 32))
   || (c =? 133) || (c =? 160) || (c =? 5760)
   || ((8192 <=? c) && (c <=? 8202)) || (c =? 8232) || (c =? 8233)
   || (c =? 8239) || (c =? 8287) || (c =? 12288))%N.

(** The digit zero of every decimal number system of Unicode 14.0, the
    version of Python 3.11 (the characters of category Nd); the other
    nine digits of a system follow its zero. *)
Definition decimal_zeros : list N :=
  [
   48; 1632; 1776; 1984; 2406; 2534; 2662; 2790; 2918; 3046;
   3174; 3302; 3430; 3558; 3664; 3792; 3872; 4160; 4240; 6112;
   6160; 6470; 6608; 6784; 6800; 6992; 7088; 7232; 7248; 42528;
   43216; 43264; 43472; 43504; 43600; 44016; 65296; 66720; 68912; 69734;
   69872; 69942; 70096; 70384; 70736; 70864; 71248; 71360; 71472; 71904;
   72016; 72784; 73040; 73120; 92768; 92864; 93008; 120782; 120792; 120802;
   120812; 120822; 123200; 123632; 125264; 130032
  ]%N.

(** The value of a decimal digit, [None] for any other character. *)
Definition to_decimal (c : N) : option N :=
  match find (fun z => ((z <=? c) && (c <? z + 10))%N) decimal_zeros with
  | Some z => Some (c - z)%N
  | None => None
  end.

End Unicode.

(** ** Python's [float(str)] *)

Module PyFloat.

Definition chars : Type := list ascii.

(** What [float] makes of the text before it reads it: a character
    below 127 stays, white space becomes a blank and a decimal digit of
    any number system the ASCII digit of its value; at any other
    character the text is cut off behind a question mark, which no number
    contains.  A text that is ASCII throughout stays as it is. *)
Fixpoint transform (s : list N) : chars :=
  match s with
  | [] => []
  | c :: s' =>
      if (c <? 127)%N then ascii_of_N c :: transform s'
      else if Unicode.is_space c then " "%char :: transform s'
      else
        match Unicode.to_decimal c with
        | Some d => ascii_of_N (48 + d) :: transform s'
        | None => ["?"%char]
        end
  end.

Definition to_ascii (s : list N) : chars :=
  if forallb (fun c => (c <? 128)%N) s then map ascii_of_N s else transform s.

(** The white space that is dropped around the number: blank, tab, line
    feed, vertical tab, form feed and carriage return. *)
Definition is_space (c : ascii) : bool :=
  let n := nat_of_ascii c in
  (Nat.eqb n 32 || (Nat.leb 9 n && Nat.leb n 13))%bool.

Definition digit_of (c : ascii) : option Z :=
  let n := Z.of_nat (nat_of_ascii c) in
  if (48 <=? n) && (n <=? 57) then Some (n - 48) else None.

Definition lower (c : ascii) : ascii :=
  let n := nat_of_ascii c in
  if (Nat.leb 65 n && Nat.leb n 90)%bool then ascii_of_nat (n + 32) else c.

Fixpoint lstrip (s : chars) : chars :=
  match s with
  | c :: s' => if is_space c then lstrip s' else s
  | [] => []
  end.

Definition strip (s : chars) : chars := rev (lstrip (rev (lstrip s))).

Definition chars_eqb (a b : chars) : bool :=
  String.eqb (string_of_list_ascii a) (string_of_list_ascii b).

(** [digitpart ::= digit (["_"] digit)*], read from the left with the
    value accumulated in [acc] and the number of digits in [n].  The
    flag [after_digit] says that the previous character was a digit, the
    only place where an underscore or the end of the part may follow. *)
Fixpoint digitpart (s : chars) (after_digit : bool) (acc : Z) (n : Z)
  : option (Z * Z * chars) :=
  match s with
  | c :: s' =>
      match digit_of c with
      | Some d => digitpart s' true (10 * acc + d) (n + 1)
      | None =>
          if after_digit then
            if Ascii.eqb c "_" then
              match s' with
              | c' :: _ =>
                  match digit_of c' with
                  | Some _ => digitpart s' false acc n
                  | None => None
                  end
              | [] => None
              end
            else Some (acc, n, s)
          else if Z.eqb n 0 then Some (acc, n, s) else None
      end
  | [] => if after_digit || Z.eqb n 0 then Some (acc, n, s) else None
  end.

Definition sign (s : chars) : bool * chars :=
  match s with
  | c :: s' =>
      if Ascii.eqb c "-" then (true, s')
      else if Ascii.eqb c "+" then (false, s')
      else (false, s)
  | [] => (false, s)
  end.

(** [exponent ::= ("e" | "E") [sign] digitpart]; absent when the input
    ends after the number. *)
Definition exponent (s : chars) : option Z :=
  match s with
  | [] => Some 0
  | c :: s' =>
      if Ascii.eqb (lower c) "e" then
        let '(neg, s'') := sign s' in
        match digitpart s'' false 0 0 with
        | Some (v, n, []) =>
            if 0 <? n then Some (cond_Zopp neg v) else None
        | _ => None
        end
      else None
  end.

(** [number ::= [digitpart] "." digitpart | digitpart ["."]] followed by
    the optional exponent: the pair (mantissa, decimal exponent). *)
Definition floatnumber (s : chars) : option (Z * Z) :=
  match digitpart s false 0 0 with
  | Some (ip, ni, rest) =>
      match rest with
      | c :: rest' =>
          if Ascii.eqb c "." then
            match digitpart rest' false 0 0 with
            | Some (fp, nf, rest'') =>
                if (0 <? ni) || (0 <? nf) then
                  match exponent rest'' with
                  | Some e => Some (ip * 10 ^ nf + fp, e - nf)
                  | None => None
                  end
                else None
            | None => None
            end
          else if 0 <? ni then
            match exponent rest with
            | Some e => Some (ip, e)
            | None => None
            end
          else None
      | [] => if 0 <? ni then Some (ip, 0) else None
      end
  | None => None
  end.

(** [float(s)]: surrounding white space is dropped, then
    [[sign] (floatnumber | "inf" | "infinity" | "nan")], the words in any
    case.  [None] stands for the [ValueError] Python raises. *)
Definition float_of_chars (s : chars) : option float :=
  let '(neg, body) := sign (strip s) in
  let word := map lower body in
  if chars_eqb word (list_ascii_of_string "inf")
     || chars_eqb word (list_ascii_of_string "infinity")
  then Some (S754_infinity neg)
  else if chars_eqb word (list_ascii_of_string "nan") then Some Float64.nan
  else
    match floatnumber body with
    | Some (m, e) => Some (Float64.of_decimal neg m e)
    | None => None
    end.

Definition float_of_string (s : string) : option float :=
  match Unicode.code_points s with
  | Some text => float_of_chars (to_ascii text)
  | None => None
  end.

End PyFloat.



(** ** Timestamps and the missing date *)

Record Timestamp : Type := mkTimestamp {
  year : Z;
  month : Z;
  day : Z;
  nanos : Z   (* time of day, in nanoseconds *)
}.

(** A cell of a [datetime64] column: a timestamp or [NaT]. *)
Inductive datetime : Type :=
| NaT
| Stamp (t : Timestamp).

(** What [.date()] returns: a calendar date, or [NaT] again. *)
Inductive date : Type :=
| date_NaT
| Date (y m d : Z).

Module Dates.

Definition compare (a b : Timestamp) : comparison :=
  match year a ?= year b with
  | Eq =>
      match month a ?= month b with
      | Eq =>
          match day a ?= day b with
          | Eq => nanos a ?= nanos b
          | c => c
          end
      | c => c
      end
  | c => c
  end.

Definition ts_leb (a b : Timestamp) : bool :=
  match compare a b with Gt => false | _ => true end.

Definition ts_ltb (a b : Timestamp) : bool :=
  match compare a b with Lt => true | _ => false end.

(** Comparisons of column cells: any comparison with [NaT] is false. *)
Definition leb (a b : datetime) : bool :=
  match a, b with
  | Stamp x, Stamp y => ts_leb x y
  | _, _ => false
  end.

Definition gtb (a b : datetime) : bool :=
  match a, b with
  | Stamp x, Stamp y => ts_ltb y x
  | _, _ => false
  end.

(** [Series.min()] and [Series.max()] of a datetime column: missing
    values are skipped, and the answer is [NaT] when nothing is left. *)
Fixpoint min (col : list datetime) : datetime :=
  match col with
  | [] => NaT
  | NaT :: col' => min col'
  | Stamp t :: col' =>
      match min col' with
      | NaT => Stamp t
      | Stamp u => if ts_ltb u t then Stamp u else Stamp t
      end
  end.

Fixpoint max (col : list datetime) : datetime :=
  match col with
  | [] => NaT
  | NaT :: col' => max col'
  | Stamp t :: col' =>
      match max col' with
      | NaT => Stamp t
      | Stamp u => if ts_ltb t u then Stamp u else Stamp t
      end
  end.

(** The [.date()] method.  On a timestamp it drops the time of day.  On
    [NaT] it is one of the methods pandas defines to hand [NaT] back
    (with [now], [today], [replace], [tz_convert] and [tz_localize]);
    the ones that raise on [NaT] are [time], [timetz], [timetuple],
    [toordinal], [strftime] and their like. *)
Definition date_method (d : datetime) : result date :=
  match d with
  | NaT => Ok date_NaT
  | Stamp t => Ok (Date (year t) (month t) (day t))
  end.

(** *** A reader of dates written in digits

    The library's readers of date strings are parameters of the Cleaner.
    The three functions below take their place in the examples: they read
    the layouts [M/D/YYYY] and [D/M/YYYY], the fields written in the
    digits [0] to [9] without blanks, as the library reads them, and
    nothing else. *)

Fixpoint split_on (sep : ascii) (s : list ascii) : list (list ascii) :=
  match s with
  | [] => [[]]
  | c :: s' =>
      if Ascii.eqb c sep then [] :: split_on sep s'
      else
        match split_on sep s' with
        | w :: ws => (c :: w) :: ws
        | [] => [[c]]
        end
  end.

Fixpoint digits (s : list ascii) (acc : Z) : option Z :=
  match s with
  | [] => Some acc
  | c :: s' =>
      match PyFloat.digit_of c with
      | Some d => digits s' (10 * acc + d)
      | None => None
      end
  end.

(** A field of [lo] to [hi] digits. *)
Definition field (lo hi : nat) (s : list ascii) : option Z :=
  if (Nat.leb lo (List.length s) && Nat.leb (List.length s) hi)%bool
  then digits s 0
  else None.

(** The fields of a date written with slashes: one or two digits twice,
    then a year of four digits. *)
Definition slashed (s : string) : option (Z * Z * Z) :=
  match split_on "/" (list_ascii_of_string s) with
  | [a; b; c] =>
      match field 1 2 a, field 1 2 b, field 4 4 c with
      | Some x, Some y, Some z => Some (x, y, z)
      | _, _, _ => None
      end
  | _ => None
  end.

Definition leap (y : Z) : bool :=
  ((y mod 4 =? 0) && negb (y mod 100 =? 0)) || (y mod 400 =? 0).

Definition days_in_month (y m : Z) : Z :=
  if m =? 2 then (if leap y then 29 else 28)
  else if (m =? 4) || (m =? 6) || (m =? 9) || (m =? 11) then 30
  else 31.

(** A day of the calendar. *)
Definition is_date (y m d : Z) : bool :=
  (1 <=? y) && (1 <=? m) && (m <=? 12) && (1 <=? d) && (d <=? days_in_month y m).

(** A day that a timestamp of nanoseconds can hold: 22 September 1677 to
    11 April 2262. *)
Definition is_timestamp (y m d : Z) : bool :=
  is_date y m d && ts_leb (mkTimestamp 1677 9 22 0) (mkTimestamp y m d 0)
  && ts_leb (mkTimestamp y m d 0) (mkTimestamp 2262 4 11 0).

(** The timestamp of a day at midnight. *)
Definition stamp (y m d : Z) : option Timestamp :=
  if is_timestamp y m d then Some (mkTimestamp y m d 0) else None.

(** Whether the first field is the day: it is when it cannot be a month,
    and when the day is preferred first and the second field can be the
    month. *)
Definition day_comes_first (dayfirst : bool) (a b : Z) : bool :=
  (12 <? a) || (dayfirst && (b <=? 12)).

(** The format guessed from one date string: the layout in which the
    string is read on its own, when it is a timestamp so. *)
Definition guess_numeric_format (dayfirst : bool) (s : string) : option string :=
  match slashed s with
  | Some (a, b, y) =>
      if day_comes_first dayfirst a b
      then (if is_timestamp y b a then Some "%d/%m/%Y"%string else None)
      else (if is_timestamp y a b then Some "%m/%d/%Y"%string else None)
  | None => None
  end.

(** One date string read under a format. *)
Definition strptime_numeric (fmt s : string) : option Timestamp :=
  match slashed s with
  | Some (a, b, y) =>
      if String.eqb fmt "%m/%d/%Y" then stamp y a b
      else if String.eqb fmt "%d/%m/%Y" then stamp y b a
      else None
  | None => None
  end.

(** One date string read on its own, without a format. *)
Definition parse_numeric_date (dayfirst : bool) (s : string) : option Timestamp :=
  match slashed s with
  | Some (a, b, y) =>
      if day_comes_first dayfirst a b then stamp y b a else stamp y a b
  | None => None
  end.

End Dates.

(** ** The table *)

(** A cell of an [object] column as [read_csv] leaves it: the text of the
    field, held as its UTF-8 encoding, or the missing value an empty
    field is read as.  The date column and the currency columns of the
    data file, written with dollar signs and commas, are such columns. *)
Inductive cell : Type :=
| Str (s : string)
| NA.

Record RawFilm : Type := mkRawFilm {
  raw_Movie_Title : string;
  raw_Release_Date : cell;
  raw_USD_Production_Budget : cell;
  raw_USD_Domestic_Gross : cell;
  raw_USD_Worldwide_Gross : cell
}.

(** A row after the Cleaner (steps 2 and 3). *)
Record Film : Type := mkFilm {
  Movie_Title : string;
  Release_Date : datetime;
  USD_Production_Budget : float;
  USD_Domestic_Gross : float;
  USD_Worldwide_Gross : float
}.

(** A row once step 5 has added the [Profit] column. *)
Record FilmP : Type := mkFilmP {
  film :> Film;
  Profit : float
}.

(** [df[mask]]: the rows whose mask entry is [True], in table order. *)
Fixpoint getitem_mask {A : Type} (df : list A) (mask : list bool) : list A :=
  match df, mask with
  | r :: df', b :: mask' =>
      if b then r :: getitem_mask df' mask' else getitem_mask df' mask'
  | _, _ => []
  end.

(** [df.loc[label]] under the default [RangeIndex]: the label is the
    position. *)
Definition loc {A : Type} (df : list A) (label : nat) : result A :=
  match nth_error df label with
  | Some r => Ok r
  | None => Raise (KeyError label)
  end.

(** ** Steps 2 and 3: the Cleaner *)

(** The [errors] argument of [pd.to_datetime]. *)
Inductive errors_mode : Type :=
| errors_raise
| errors_coerce.

(** [re.sub("[$,]", "", s)]: every dollar sign and comma is removed. *)
Fixpoint strip_currency (s : string) : string :=
  match s with
  | EmptyString => EmptyString
  | String c s' =>
      if Ascii.eqb c "$" || Ascii.eqb c ","
      then strip_currency s'
      else String c (strip_currency s')
  end.

(** [Series.replace({r"[$,]": ""}, regex=True)] on one cell: only text is
    rewritten, a missing value stays as it is. *)
Definition replace_regex (c : cell) : cell :=
  match c with
  | Str s => Str (strip_currency s)
  | NA => NA
  end.

(** [astype(float)] on one cell.  The message of the error is given up
    to the text of the cell, which follows it. *)
Definition float_of_cell (c : cell) : result float :=
  match c with
  | NA => Ok Float64.nan
  | Str s =>
      match PyFloat.float_of_string s with
      | Some x => Ok x
      | None => Raise (ValueError "could not convert string to float")
      end
  end.

Definition astype_float (col : list cell) : result (list float) :=
  mapM float_of_cell col.

(** The body of the loop over [currency_cols] (line 22). *)
Definition clean_currency (col : list cell) : result (list float) :=
  astype_float (map replace_regex col).

(** Rows of the cleaned table, put together from its columns. *)
Fixpoint frame (raw : list RawFilm) (rd : list datetime) (pb wg dg : list float)
  : list Film :=
  match raw, rd, pb, wg, dg with
  | r :: raw', d :: rd', b :: pb', w :: wg', g :: dg' =>
      mkFilm (raw_Movie_Title r) d b g w :: frame raw' rd' pb' wg' dg'
  | _, _, _, _, _ => []
  end.

(** The strings that stand for a missing date. *)
Definition nat_strings : list string :=
  ["NaT"; "nat"; "NAT"; "nan"; "NaN"; "NAN"]%string.

Definition is_null_string (s : string) : bool :=
  String.eqb s EmptyString || existsb (String.eqb s) nat_strings.

(** The first cell of a column that holds a date to read: missing cells,
    the strings that stand for a missing date and the words [now] and
    [today] are passed over. *)
Fixpoint first_non_null (col : list cell) : option string :=
  match col with
  | [] => None
  | NA :: col' => first_non_null col'
  | Str s :: col' =>
      if is_null_string s || String.eqb s "now" || String.eqb s "today"
      then first_non_null col'
      else Some s
  end.

Section Cleaner.

(** The library's readers of date strings, [None] when the string is not
    a date they read: the guess of a format from one string, the reader
    of one string under a format, and the reader of one string on its
    own.  The first argument of the first and the last is [dayfirst].
    The timestamps read carry no time zone. *)
Variable guess_datetime_format : bool -> string -> option string.
Variable strptime : string -> string -> option Timestamp.
Variable parse_datetime_string : bool -> string -> option Timestamp.

(** How the strings of a column are read.  No format is given, so one is
    guessed from the first string of the column that is not missing, and
    every string is read under it; [dayfirst] only guides the guess.
    When no format can be guessed, each string is read on its own. *)
Definition column_reader (dayfirst : bool) (col : list cell)
  : string -> option Timestamp :=
  match first_non_null col with
  | Some s =>
      match guess_datetime_format dayfirst s with
      | Some fmt => strptime fmt
      | None => parse_datetime_string dayfirst
      end
  | None => parse_datetime_string dayfirst
  end.

(** One cell under the reader of its column.  A string that cannot be
    read raises, unless [errors] is [coerce]: then it is [NaT].  (The
    message of the error, which names the string, is cut short.) *)
Definition to_datetime_cell (read : string -> option Timestamp)
  (errors : errors_mode) (c : cell) : result datetime :=
  match c with
  | NA => Ok NaT
  | Str s =>
      if is_null_string s then Ok NaT
      else
        match read s with
        | Some t => Ok (Stamp t)
        | None =>
            match errors with
            | errors_coerce => Ok NaT
            | errors_raise => Raise (ValueError "time data does not match format")
            end
        end
  end.

(** [pd.to_datetime(col, dayfirst=..., errors=...)]. *)
Definition to_datetime (dayfirst : bool) (errors : errors_mode) (col : list cell)
  : result (list datetime) :=
  mapM (to_datetime_cell (column_reader dayfirst col) errors) col.

(** Lines 21 to 27: the three currency columns in the order of
    [currency_cols], then the date column. *)
Definition Cleaner (df : list RawFilm) : result (list Film) :=
  pb <- clean_currency (map raw_USD_Production_Budget df) ;;
  wg <- clean_currency (map raw_USD_Worldwide_Gross df) ;;
  dg <- clean_currency (map raw_USD_Domestic_Gross df) ;;
  rd <- to_datetime false errors_coerce (map raw_Release_Date df) ;;
  Ok (frame df rd pb wg dg).

End Cleaner.

(** ** Step 4: the release date range of the overview (line 41) *)

Definition release_date_range (df : list Film) : result (date * date) :=
  lo <- Dates.date_method (Dates.min (map Release_Date df)) ;;
  hi <- Dates.date_method (Dates.max (map Release_Date df)) ;;
  Ok (lo, hi).

(** ** Step 5: the Profit column (line 50) *)

Fixpoint zip_with {A B C : Type} (f : A -> B -> C) (a : list A) (b : list B)
  : list C :=
  match a, b with
  | x :: a', y :: b' => f x y :: zip_with f a' b'
  | _, _ => []
  end.

(** Subtraction of two columns of one table, element by element. *)
Definition series_sub (a b : list float) : list float :=
  zip_with Float64.sub a b.

Definition with_Profit (df : list Film) : list FilmP :=
  zip_with mkFilmP df
    (series_sub (map USD_Worldwide_Gross df) (map USD_Production_Budget df)).

(** ** Step 6: the bottom quartile (lines 55 to 59) *)

Module Quantile.

Definition dropna (col : list float) : list float :=
  filter (fun x => negb (Float64.is_nan x)) col.

Fixpoint insert (x : float) (l : list float) : list float :=
  match l with
  | [] => [x]
  | y :: l' => if Float64.leb x y then x :: l else y :: insert x l'
  end.

Fixpoint sort (l : list float) : list float :=
  match l with
  | [] => []
  | x :: l' => insert x (sort l')
  end.

(** The integer part of a float, rounding down. *)
Definition floor (x : float) : Z :=
  match x with
  | S754_finite s m e =>
      let n := cond_Zopp s (Zpos m) in
      if 0 <=? e then n * 2 ^ e else Z.shiftr n (- e)
  | _ => 0
  end.

(** numpy's linear interpolation between the neighbours [a] and [b] at
    the fraction [t]: from the lower neighbour, and from the upper one
    when the fraction is one half or more. *)
Definition lerp (a b t : float) : float :=
  let diff_b_a := Float64.sub b a in
  if Float64.leb (Float64.of_decimal false 5 (-1)) t
  then Float64.sub b (Float64.mul diff_b_a (Float64.sub (Float64.of_Z 1) t))
  else Float64.add a (Float64.mul diff_b_a t).

(** The fractional index [(n - 1) * q] of the quantile among [n] sorted
    values, and the indexes of its two neighbours.  An index at or past
    the last value is replaced by [-1] (the last value, counted from the
    end) and one below zero by [0]. *)
Definition virtual_index (n : Z) (q : float) : float :=
  Float64.mul (Float64.of_Z (n - 1)) q.

Definition previous_index (n : Z) (h : float) : Z :=
  if Float64.leb (Float64.of_Z (n - 1)) h then -1
  else if Float64.ltb h (Float64.of_Z 0) then 0
  else floor h.

Definition next_index (n : Z) (h : float) : Z :=
  if Float64.leb (Float64.of_Z (n - 1)) h then -1
  else if Float64.ltb h (Float64.of_Z 0) then 0
  else floor h + 1.

(** [v[i]], a negative index counting from the end. *)
Definition getitem (v : list float) (i : Z) : float :=
  nth (Z.to_nat (if i <? 0 then Z.of_nat (List.length v) + i else i)) v Float64.nan.

(** [Series.quantile(q)] with the default [interpolation="linear"]:
    missing values are dropped, the rest is sorted, and the quantile is
    interpolated between the two values next to the fractional index, at
    the fraction by which the index exceeds the lower one.  An empty
    column has quantile NaN. *)
Definition quantile (col : list float) (q : float) : float :=
  let v := sort (dropna col) in
  match v with
  | [] => Float64.nan
  | _ :: _ =>
      let n := Z.of_nat (List.length v) in
      let h := virtual_index n q in
      let gamma := Float64.sub h (Float64.of_Z (previous_index n h)) in
      lerp (getitem v (previous_index n h)) (getitem v (next_index n h)) gamma
  end.

End Quantile.

(** [len(df)]. *)
Definition len {A : Type} (df : list A) : Z := Z.of_nat (List.length df).

(** [mask.sum()]: the number of [True] entries. *)
Fixpoint sum_bool (mask : list bool) : Z :=
  match mask with
  | [] => 0
  | b :: mask' => (if b then 1 else 0) + sum_bool mask'
  end.

Definition q1 (df : list FilmP) : float :=
  Quantile.quantile (map (fun r : FilmP => USD_Worldwide_Gross r) df)
    (Float64.of_decimal false 25 (-2)).

Definition bottom_25 (df : list FilmP) : list FilmP :=
  getitem_mask df
    (map (fun x => Float64.leb x (q1 df)) (map (fun r : FilmP => USD_Worldwide_Gross r) df)).

Definition profitable_cnt (df : list FilmP) : Z :=
  sum_bool (map (fun p => Float64.gtb p (Float64.of_Z 0)) (map Profit (bottom_25 df))).

Definition loss_cnt (df : list FilmP) : Z :=
  len (bottom_25 df) - profitable_cnt df.

(** Line 59.  Both operands are converted to float64 and divided by
    numpy's true division, which has a value for every pair of operands. *)
Definition pct_profitable (df : list FilmP) : float :=
  Float64.mul
    (Float64.div (Float64.of_Z (profitable_cnt df)) (Float64.of_Z (len (bottom_25 df))))
    (Float64.of_Z 100).

(** ** Step 8: extremes (lines 83 to 85) *)

Module Extremes.

Definition fillna (v x : float) : float :=
  if Float64.is_nan x then v else x.

(** numpy's [argmax] and [argmin] are one scan from the left that
    moves only to a strictly better value, so that the first of several
    equal extremes is the one reported; [better x best] is [x > best]
    for the maximum and [x < best] for the minimum. *)
Fixpoint scan_from (better : float -> float -> bool)
  (l : list float) (i best_i : nat) (best : float) : nat :=
  match l with
  | [] => best_i
  | x :: l' =>
      if better x best then scan_from better l' (S i) i x
      else scan_from better l' (S i) best_i best
  end.

Definition scan (better : float -> float -> bool) (l : list float) : nat :=
  match l with
  | [] => 0%nat
  | x :: l' => scan_from better l' 1%nat 0%nat x
  end.

Definition argmax (l : list float) : nat := scan Float64.gtb l.

Definition argmin (l : list float) : nat := scan Float64.ltb l.

(** [Series.idxmax()] and [Series.idxmin()] with the default
    [skipna=True]: missing values are replaced by the infinity that
    cannot win before the scan.  The scan of an empty column raises, and
    after the scan a column whose values are all missing is refused. *)
Definition idxmax (col : list float) : result nat :=
  match col with
  | [] => Raise (ValueError "attempt to get argmax of an empty sequence")
  | _ :: _ =>
      if forallb Float64.is_nan col
      then Raise (ValueError "Encountered all NA values")
      else Ok (argmax (map (fillna Float64.neg_inf) col))
  end.

Definition idxmin (col : list float) : result nat :=
  match col with
  | [] => Raise (ValueError "attempt to get argmin of an empty sequence")
  | _ :: _ =>
      if forallb Float64.is_nan col
      then Raise (ValueError "Encountered all NA values")
      else Ok (argmin (map (fillna Float64.pos_inf) col))
  end.

End Extremes.

Definition max_budget_row (df : list FilmP) : result FilmP :=
  i <- Extremes.idxmax (map (fun r : FilmP => USD_Production_Budget r) df) ;; loc df i.

Definition max_gross_row (df : list FilmP) : result FilmP :=
  i <- Extremes.idxmax (map (fun r : FilmP => USD_Worldwide_Gross r) df) ;; loc df i.

Definition min_budget_row (df : list FilmP) : result FilmP :=
  i <- Extremes.idxmin (map (fun r : FilmP => USD_Production_Budget r) df) ;; loc df i.

(** ** Step 11: the release cutoff (lines 119 to 121) *)

Definition cutoff : datetime := Stamp (mkTimestamp 2018 5 1 0).

Definition data_clean (df : list FilmP) : list FilmP :=
  getitem_mask df
    (map (fun d => Dates.leb d cutoff) (map (fun r : FilmP => Release_Date r) df)).

Definition unreleased (df : list FilmP) : list FilmP :=
  getitem_mask df
    (map (fun d => Dates.gtb d cutoff) (map (fun r : FilmP => Release_Date r) df)).

(** ** Step 13: the regression (lines 133 to 149) *)

Record LinearRegression : Type := mkLinearRegression {
  intercept_ : float;
  coef_ : list float
}.

(** The regression's input: [X] has the budget as its single column. *)
Definition X (df : list FilmP) : list (list float) :=
  map (fun r : FilmP => [USD_Production_Budget r]) (data_clean df).

Definition y (df : list FilmP) : list float :=
  map (fun r : FilmP => USD_Worldwide_Gross r) (data_clean df).

(** The product of a sample with the coefficient vector. *)
Fixpoint dot (x w : list float) : float :=
  match x, w with
  | a :: x', b :: w' =>
      match x', w' with
      | _ :: _, _ :: _ => Float64.add (Float64.mul a b) (dot x' w')
      | _, _ => Float64.mul a b
      end
  | _, _ => Float64.zero
  end.

(** [model.predict(X)]: [X @ coef_ + intercept_], one value per sample. *)
Definition predict (model : LinearRegression) (samples : list (list float))
  : list float :=
  map (fun x => Float64.add (dot x (coef_ model)) (intercept_ model)) samples.

Definition theta_0 (model : LinearRegression) : float := intercept_ model.

Definition theta_1 (model : LinearRegression) : float :=
  nth 0 (coef_ model) Float64.nan.

Section Regressor.

(** The least-squares solver behind [LinearRegression.fit] for a single
    feature: from the feature column and the target it returns the
    intercept and the slope. *)
Variable least_squares : list float -> list float -> float * float.

Definition fit (samples : list (list float)) (target : list float)
  : LinearRegression :=
  let '(a, b) := least_squares (map (fun x => hd Float64.nan x) samples) target in
  mkLinearRegression a [b].

(** The loop of lines 147 to 149: the prediction for each budget. *)
Definition predictions (df : list FilmP) : list (Z * float) :=
  let model := fit (X df) (y df) in
  map (fun budget =>
         (budget, nth 0 (predict model [[Float64.of_Z budget]]) Float64.nan))
      [150000000; 350000000].

End Regressor.

(** ** Step 4: the minima of the overview (lines 34 and 35) *)

Module Summary.

(** numpy's [min]: a scan from the left that keeps the value held only
    while it is strictly below the next one, so that of two equal values
    the later is returned. *)
Fixpoint min_from (l : list float) (best : float) : float :=
  match l with
  | [] => best
  | x :: l' => if Float64.ltb best x then min_from l' best else min_from l' x
  end.

(** [Series.min()] with the default [skipna=True]: missing values are
    replaced by plus infinity before the scan, and a column with no value
    at all has minimum NaN. *)
Definition series_min (col : list float) : float :=
  if forallb Float64.is_nan col then Float64.nan
  else
    match map (Extremes.fillna Float64.pos_inf) col with
    | [] => Float64.nan
    | x :: l => min_from l x
    end.

End Summary.

Definition min_worldwide_gross (df : list Film) : float :=
  Summary.series_min (map USD_Worldwide_Gross df).

Definition min_domestic_gross (df : list Film) : float :=
  Summary.series_min (map USD_Domestic_Gross df).

(** ** Steps 9 and 10: films without revenue (lines 100 to 114) *)

Definition zero_domestic (df : list FilmP) : list FilmP :=
  getitem_mask df
    (map (fun x => Float64.eqb x (Float64.of_Z 0))
         (map (fun r : FilmP => USD_Domestic_Gross r) df)).

Definition zero_worldwide (df : list FilmP) : list FilmP :=
  getitem_mask df
    (map (fun x => Float64.eqb x (Float64.of_Z 0))
         (map (fun r : FilmP => USD_Worldwide_Gross r) df)).

(** [df.head(n)]: the first [n] rows. *)
Definition head {A : Type} (n : nat) (df : list A) : list A := firstn n df.

(** [df.query("USD_Worldwide_Gross > 0 and USD_Domestic_Gross == 0")]: the
    two masks are joined entry by entry. *)
Definition intl_only (df : list FilmP) : list FilmP :=
  getitem_mask df
    (zip_with andb
       (map (fun x => Float64.gtb x (Float64.of_Z 0))
            (map (fun r : FilmP => USD_Worldwide_Gross r) df))
       (map (fun x => Float64.eqb x (Float64.of_Z 0))
            (map (fun r : FilmP => USD_Domestic_Gross r) df))).

(** The rows of the listing printed at line 114: [head()] takes five. *)
Definition intl_only_listing (df : list FilmP) : list (string * float * float) :=
  map (fun r : FilmP =>
         (Movie_Title r, USD_Production_Budget r, USD_Worldwide_Gross r))
      (head 5 (intl_only df)).

Section Listing.

(** [df.sort_values("USD_Production_Budget", ascending=False)].  The
    library's default sort is not a stable one, so the order of films
    with equal budgets is left to it. *)
Variable sort_values_desc : list FilmP -> list FilmP.

(** The listings printed at lines 104 and 107. *)
Definition top_zero_domestic (df : list FilmP) : list (string * float) :=
  map (fun r : FilmP => (Movie_Title r, USD_Production_Budget r))
      (head 5 (sort_values_desc (zero_domestic df))).

Definition top_zero_worldwide (df : list FilmP) : list (string * float) :=
  map (fun r : FilmP => (Movie_Title r, USD_Production_Budget r))
      (head 5 (sort_values_desc (zero_worldwide df))).

End Listing.

(** A sort by falling budget that keeps films with equal budgets in table
    order, one sort the library's may be. *)
Fixpoint insert_desc (r : FilmP) (l : list FilmP) : list FilmP :=
  match l with
  | [] => [r]
  | r' :: l' =>
      if Float64.leb (USD_Production_Budget r') (USD_Production_Budget r)
      then r :: l
      else r' :: insert_desc r l'
  end.

Definition insertion_sort_desc (df : list FilmP) : list FilmP :=
  fold_right insert_desc [] df.

(** ** Step 12: films that lost money (lines 127 and 128) *)

Definition losses (df : list FilmP) : Z :=
  sum_bool
    (zip_with Float64.gtb
       (map (fun r : FilmP => USD_Production_Budget r) (data_clean df))
       (map (fun r : FilmP => USD_Worldwide_Gross r) (data_clean df))).

Definition pct_lost (df : list FilmP) : float :=
  Float64.mul
    (Float64.div (Float64.of_Z (losses df)) (Float64.of_Z (len (data_clean df))))
    (Float64.of_Z 100).

(** ** Words of the specification, and sample tables *)




(** What [errors="coerce"] makes of one cell under the reader [read] of
    its column. *)
Definition coerced (read : string -> option Timestamp) (c : cell) : datetime :=
  match c with
  | Str s =>
      if is_null_string s then NaT
      else
        match read s with
        | Some t => Stamp t
        | None => NaT
        end
  | NA => NaT
  end.



(** A currency value as the specification wants it after cleaning:
    a finite number that is not below zero. *)
Definition nonneg_finite (x : float) : bool :=
  Float64.is_finite x && Float64.leb Float64.zero x.

(** The text of a cell, as [float] reads it, starts with a minus sign or
    spells [nan]. *)
Definition signed_or_nan (s : string) : bool :=
  match Unicode.code_points s with
  | Some text =>
      let '(neg, body) := PyFloat.sign (PyFloat.strip (PyFloat.to_ascii text)) in
      neg || PyFloat.chars_eqb (map PyFloat.lower body) (list_ascii_of_string "nan")
  | None => false
  end.

(** The relation between a row as read and the row the Cleaner makes of
    it. *)
Definition cleaned (read : string -> option Timestamp)
  (r : RawFilm) (f : Film) : Prop :=
  Movie_Title f = raw_Movie_Title r /\
  Release_Date f = coerced read (raw_Release_Date r) /\
  float_of_cell (replace_regex (raw_USD_Production_Budget r))
  = Ok (USD_Production_Budget f) /\
  float_of_cell (replace_regex (raw_USD_Worldwide_Gross r))
  = Ok (USD_Worldwide_Gross f) /\
  float_of_cell (replace_regex (raw_USD_Domestic_Gross r))
  = Ok (USD_Domestic_Gross f).

Definition currency_cells (r : RawFilm) : list cell :=
  [raw_USD_Production_Budget r; raw_USD_Worldwide_Gross r; raw_USD_Domestic_Gross r].

(** A column without missing values. *)
Definition no_nan (col : list float) : Prop :=
  Forall (fun x => Float64.is_nan x = false) col.

(** [v], at position [k] of [l], is at least as good as every element and
    strictly better than every earlier one; [better x y] reads "[x] is
    strictly better than [y]" and [covers x y] "[x] is at least as good
    as [y]". *)
Definition first_best (better covers : float -> float -> bool)
  (l : list float) (k : nat) (v : float) : Prop :=
  nth_error l k = Some v /\
  forall j x, nth_error l j = Some x ->
              covers v x = true /\ ((j < k)%nat -> better v x = true).

(** The row [r], at position [i], holds the first maximum of a column:
    with a missing value standing as minus infinity, no row is above it
    and every earlier row is strictly below it. *)
Definition first_maximum (field : FilmP -> float) (df : list FilmP)
  (i : nat) (r : FilmP) : Prop :=
  nth_error df i = Some r /\
  forall n r', nth_error df n = Some r' ->
    Float64.leb (Extremes.fillna Float64.neg_inf (field r'))
      (Extremes.fillna Float64.neg_inf (field r)) = true /\
    ((n < i)%nat ->
     Float64.ltb (Extremes.fillna Float64.neg_inf (field r'))
       (Extremes.fillna Float64.neg_inf (field r)) = true).

(** The same for the first minimum, a missing value standing as plus
    infinity. *)
Definition first_minimum (field : FilmP -> float) (df : list FilmP)
  (i : nat) (r : FilmP) : Prop :=
  nth_error df i = Some r /\
  forall n r', nth_error df n = Some r' ->
    Float64.leb (Extremes.fillna Float64.pos_inf (field r))
      (Extremes.fillna Float64.pos_inf (field r')) = true /\
    ((n < i)%nat ->
     Float64.ltb (Extremes.fillna Float64.pos_inf (field r))
       (Extremes.fillna Float64.pos_inf (field r')) = true).

(** The same in plain terms, among the values on file: the budget of [r]
    is on file, no budget on file is above it, and every earlier budget
    on file is strictly below it. *)
Definition maximum_on_file (field : FilmP -> float) (df : list FilmP)
  (i : nat) (r : FilmP) : Prop :=
  Float64.is_nan (field r) = false /\
  forall n r', nth_error df n = Some r' ->
    Float64.is_nan (field r') = false ->
    Float64.leb (field r') (field r) = true /\
    ((n < i)%nat -> Float64.ltb (field r') (field r) = true).

Definition minimum_on_file (field : FilmP -> float) (df : list FilmP)
  (i : nat) (r : FilmP) : Prop :=
  Float64.is_nan (field r) = false /\
  forall n r', nth_error df n = Some r' ->
    Float64.is_nan (field r') = false ->
    Float64.leb (field r) (field r') = true /\
    ((n < i)%nat -> Float64.ltb (field r) (field r') = true).

(** A number with its sign bit clear that is not NaN: zero, a positive
    finite number or plus infinity. *)
Definition sign_clear (x : float) : bool :=
  match x with
  | S754_zero false | S754_infinity false | S754_finite false _ _ => true
  | _ => false
  end.

Definition is_digit (c : ascii) : bool :=
  match PyFloat.digit_of c with Some _ => true | None => false end.

(** One more character read into a decimal number; a character that is
    no digit is skipped. *)
Definition digit_step (acc : Z) (c : ascii) : Z :=
  match PyFloat.digit_of c with
  | Some d => 10 * acc + d
  | None => acc
  end.

(** The number spelled by the digits of a text, other characters
    skipped. *)
Definition digits_value (s : string) : Z :=
  fold_left digit_step (list_ascii_of_string s) 0.

(** A dollar amount as the data file writes it: digits, dollar signs and
    commas only, with a digit among them. *)
Definition amount_char (c : ascii) : bool :=
  match PyFloat.digit_of c with
  | Some _ => true
  | None => Ascii.eqb c "$" || Ascii.eqb c ","
  end.

Definition amount_text (s : string) : bool :=
  forallb amount_char (list_ascii_of_string s)
  && existsb is_digit (list_ascii_of_string s).

(** [a] is listed before [b] in a table sorted by falling budget. *)
Definition budget_desc (a b : FilmP) : Prop :=
  Float64.leb (USD_Production_Budget b) (USD_Production_Budget a) = true.

(** [listed] holds the (at most five) films of [source] with the highest
    budgets and [rest] the others: together they are the films of
    [source], and when every budget is on file the listed films come by
    falling budget and none of the others has a budget above one
    listed. *)
Definition highest_budgets (listed rest source : list FilmP) : Prop :=
  Permutation (listed ++ rest) source /\
  List.length listed = Nat.min 5 (List.length source) /\
  (no_nan (map (fun r : FilmP => USD_Production_Budget r) source) ->
   Sorted budget_desc listed /\
   forall r r', In r listed -> In r' rest -> budget_desc r r').

(** Films for the zero-revenue listings. *)
Definition df_zero_revenue : list FilmP :=
  with_Profit
    [ mkFilm "A" NaT (Float64.of_Z 10) (Float64.of_Z 0) (Float64.of_Z 0);
      mkFilm "B" NaT (Float64.of_Z 70) (Float64.of_Z 0) (Float64.of_Z 5);
      mkFilm "C" NaT (Float64.of_Z 30) (Float64.of_Z 2) (Float64.of_Z 9);
      mkFilm "D" NaT (Float64.of_Z 50) (Float64.of_Z 0) (Float64.of_Z 0);
      mkFilm "E" NaT (Float64.of_Z 20) (Float64.of_Z 0) (Float64.of_Z 1);
      mkFilm "F" NaT (Float64.of_Z 60) (Float64.of_Z 0) (Float64.of_Z 1);
      mkFilm "G" NaT (Float64.of_Z 40) (Float64.of_Z 0) (Float64.of_Z 1);
      mkFilm "H" NaT (Float64.of_Z 50) (Float64.of_Z 0) (Float64.of_Z 3) ].

(** The order of timestamps, spelled out: [a] is not after [b]. *)
Definition before (a b : Timestamp) : Prop :=
  year a < year b \/
  (year a = year b /\
   (month a < month b \/
    (month a = month b /\
     (day a < day b \/ (day a = day b /\ nanos a <= nanos b))))).

(** Two films, the second with a release date that is no date. *)
Definition raw_undated : list RawFilm :=
  [ mkRawFilm "The Birth of a Nation" (Str "8/2/1915")
      (Str "$110,000") (Str "$10,000,000") (Str "$11,000,000");
    mkRawFilm "Untitled" (Str "to be announced")
      (Str "$1,000") (Str "$0") (Str "$5,000") ].

(** A table in which no release date can be read. *)
Definition raw_all_undated : list RawFilm :=
  [ mkRawFilm "Untitled" (Str "to be announced")
      (Str "$1,000") (Str "$0") (Str "$5,000");
    mkRawFilm "Unnamed" NA (Str "$2,000") (Str "$10") (Str "$20") ].

(** A film with a negative budget and no domestic gross on file. *)
Definition raw_negative : list RawFilm :=
  [ mkRawFilm "Refund" (Str "1/1/2000") (Str "$-5") NA (Str "$0") ].

(** A cleaned table whose only Worldwide Gross is missing. *)
Definition df_no_gross : list FilmP :=
  [ mkFilmP (mkFilm "Lost" NaT (Float64.of_Z 1000) Float64.nan Float64.nan)
      Float64.nan ].

(** A cleaned table with ties on both budget extremes. *)
Definition df_ties : list FilmP :=
  with_Profit
    [ mkFilm "One" NaT (Float64.of_Z 10) (Float64.of_Z 1) (Float64.of_Z 7);
      mkFilm "Two" NaT (Float64.of_Z 30) (Float64.of_Z 1) (Float64.of_Z 9);
      mkFilm "Three" NaT (Float64.of_Z 10) (Float64.of_Z 1) (Float64.of_Z 9);
      mkFilm "Four" NaT (Float64.of_Z 30) (Float64.of_Z 1) (Float64.of_Z 8) ].


(** Five films, two of them with a Worldwide Gross equal to the first
    quartile. *)
Definition df_quartile : list FilmP :=
  with_Profit
    [ mkFilm "A" NaT (Float64.of_Z 1) (Float64.of_Z 0) (Float64.of_Z 4);
      mkFilm "B" NaT (Float64.of_Z 1) (Float64.of_Z 0) (Float64.of_Z 2);
      mkFilm "C" NaT (Float64.of_Z 1) (Float64.of_Z 0) (Float64.of_Z 1);
      mkFilm "D" NaT (Float64.of_Z 1) (Float64.of_Z 0) (Float64.of_Z 3);
      mkFilm "E" NaT (Float64.of_Z 1) (Float64.of_Z 0) (Float64.of_Z 2) ].

(** * Properties *)

(** ** The order of binary64 numbers *)

Module FloatOrder.

Ltac cases_compare :=
  repeat match goal with
    | H : context [Pos.compare_cont Eq ?a ?b] |- _ =>
        change (Pos.compare_cont Eq a b) with (Pos.compare a b) in H
    | |- context [Pos.compare_cont Eq ?a ?b] =>
        change (Pos.compare_cont Eq a b) with (Pos.compare a b)
    end;
  repeat match goal with
    | H : context [Z.compare ?a ?b] |- _ => destruct (Z.compare_spec a b)
    | |- context [Z.compare ?a ?b] => destruct (Z.compare_spec a b)
    | H : context [Pos.compare ?a ?b] |- _ => destruct (Pos.compare_spec a b)
    | |- context [Pos.compare ?a ?b] => destruct (Pos.compare_spec a b)
    end;
  simpl in *; try reflexivity; try discriminate; try congruence; try lia.

Lemma compare_antisym :
  forall x y : float,
    SFcompare y x = option_map CompOpp (SFcompare x y).
Proof.
  intros [[]|[]| |[] mx ex] [[]|[]| |[] my ey]; simpl; try reflexivity;
    cases_compare.
Qed.

Lemma compare_total :
  forall x y : float,
    Float64.is_nan x = false -> Float64.is_nan y = false ->
    exists c, SFcompare x y = Some c.
Proof.
  intros [[]|[]| |[] mx ex] [[]|[]| |[] my ey] Hx Hy; simpl in *;
    try discriminate; eexists; reflexivity.
Qed.

Lemma leb_trans :
  forall x y z : float,
    Float64.leb x y = true -> Float64.leb y z = true -> Float64.leb x z = true.
Proof.
  unfold Float64.leb, SFleb.
  intros [[]|[]| |[] mx ex] [[]|[]| |[] my ey] [[]|[]| |[] mz ez]; simpl;
    intros H1 H2; try reflexivity; try discriminate; cases_compare.
Qed.

Lemma ltb_leb_trans :
  forall x y z : float,
    Float64.ltb x y = true -> Float64.leb y z = true -> Float64.ltb x z = true.
Proof.
  unfold Float64.ltb, Float64.leb, SFltb, SFleb.
  intros [[]|[]| |[] mx ex] [[]|[]| |[] my ey] [[]|[]| |[] mz ez]; simpl;
    intros H1 H2; try reflexivity; try discriminate; cases_compare.
Qed.

Lemma leb_ltb_trans :
  forall x y z : float,
    Float64.leb x y = true -> Float64.ltb y z = true -> Float64.ltb x z = true.
Proof.
  unfold Float64.ltb, Float64.leb, SFltb, SFleb.
  intros [[]|[]| |[] mx ex] [[]|[]| |[] my ey] [[]|[]| |[] mz ez]; simpl;
    intros H1 H2; try reflexivity; try discriminate; cases_compare.
Qed.

Lemma gtb_negb_leb :
  forall x y : float,
    Float64.is_nan x = false -> Float64.is_nan y = false ->
    Float64.gtb x y = negb (Float64.leb x y).
Proof.
  intros x y Hx Hy. unfold Float64.gtb, Float64.leb, SFltb, SFleb.
  rewrite (compare_antisym x y).
  destruct (compare_total x y Hx Hy) as [c ->]. destruct c; reflexivity.
Qed.

Lemma ltb_leb :
  forall x y : float, Float64.ltb x y = true -> Float64.leb x y = true.
Proof.
  intros x y. unfold Float64.ltb, Float64.leb, SFltb, SFleb.
  destruct (SFcompare x y) as [[| |]|]; congruence.
Qed.

Lemma leb_refl :
  forall x : float, Float64.is_nan x = false -> Float64.leb x x = true.
Proof.
  unfold Float64.leb, SFleb.
  intros [[]|[]| |[] mx ex] Hx; simpl in *; try reflexivity; try discriminate;
    rewrite Z.compare_refl;
    change (Pos.compare_cont Eq mx mx) with (Pos.compare mx mx);
    rewrite Pos.compare_refl; reflexivity.
Qed.

Lemma eqb_refl :
  forall x : float, Float64.is_nan x = false -> Float64.eqb x x = true.
Proof.
  unfold Float64.eqb, SFeqb.
  intros [[]|[]| |[] mx ex] Hx; simpl in *; try reflexivity; try discriminate;
    rewrite Z.compare_refl;
    change (Pos.compare_cont Eq mx mx) with (Pos.compare mx mx);
    rewrite Pos.compare_refl; reflexivity.
Qed.


Lemma eqb_not_gtb :
  forall x y : float, Float64.eqb x y = true -> Float64.gtb x y = false.
Proof.
  intros x y. unfold Float64.eqb, Float64.gtb, SFeqb, SFltb.
  rewrite (compare_antisym x y).
  destruct (SFcompare x y) as [[| |]|]; simpl; congruence.
Qed.


End FloatOrder.

(** ** The error monad *)

Lemma mapM_Ok {A B : Type} (f : A -> result B) :
  forall l l', mapM f l = Ok l' -> Forall2 (fun a b => f a = Ok b) l l'.
Proof.
  induction l as [|a l IH]; simpl; intros l' H.
  - injection H as <-. constructor.
  - destruct (f a) as [b|e] eqn:Ha; simpl in H; [|discriminate].
    destruct (mapM f l) as [bs|e] eqn:Hl; simpl in H; [|discriminate].
    injection H as <-. constructor; auto.
Qed.

Lemma mapM_Raise {A B : Type} (f : A -> result B) :
  forall l e, mapM f l = Raise e -> exists a, In a l /\ f a = Raise e.
Proof.
  induction l as [|a l IH]; simpl; intros e H; [discriminate|].
  destruct (f a) as [b|e'] eqn:Ha; simpl in H.
  - destruct (mapM f l) as [bs|e''] eqn:Hl; simpl in H; [discriminate|].
    injection H as <-. destruct (IH _ eq_refl) as (a' & Hin & Hf).
    exists a'. auto.
  - injection H as <-. exists a. auto.
Qed.

Lemma mapM_pure {A B : Type} (f : A -> result B) (g : A -> B) :
  (forall a, f a = Ok (g a)) -> forall l, mapM f l = Ok (map g l).
Proof.
  intros Hf. induction l as [|a l IH]; simpl; [reflexivity|].
  rewrite Hf, IH. reflexivity.
Qed.

(** ** Tables *)

Lemma getitem_mask_filter {A B : Type} (p : B -> bool) (f : A -> B) :
  forall df : list A,
    getitem_mask df (map p (map f df)) = filter (fun r => p (f r)) df.
Proof.
  induction df as [|r df IH]; simpl; [reflexivity|].
  rewrite IH. reflexivity.
Qed.

Lemma sum_bool_filter {A : Type} (p : A -> bool) :
  forall l : list A, sum_bool (map p l) = len (filter p l).
Proof.
  unfold len. induction l as [|a l IH]; simpl sum_bool; simpl filter; [reflexivity|].
  rewrite IH. destruct (p a); simpl List.length; lia.
Qed.

Lemma filter_length_split {A : Type} (p : A -> bool) :
  forall l : list A,
    (List.length (filter p l) + List.length (filter (fun a => negb (p a)) l)
     = List.length l)%nat.
Proof.
  induction l as [|a l IH]; simpl; [reflexivity|].
  destruct (p a); simpl; lia.
Qed.

Lemma with_Profit_rows :
  forall df : list Film,
    with_Profit df
    = map (fun r => mkFilmP r
                      (Float64.sub (USD_Worldwide_Gross r) (USD_Production_Budget r)))
          df.
Proof.
  unfold with_Profit, series_sub.
  induction df as [|r df IH]; simpl; [reflexivity|].
  rewrite IH. reflexivity.
Qed.

(** ** Step 5 *)

(** C6.  The Profit column holds, in every row, the difference of that
    row's Worldwide Gross and Production Budget, the very value of the
    subtraction (and equal to it under the comparison of floats whenever
    it is a number); adding the column leaves the rows of the cleaned
    table as they were. *)
Theorem Profit_is_gross_minus_budget :
  forall df : list Film,
    map film (with_Profit df) = df /\
    Forall (fun r : FilmP =>
              Profit r
              = Float64.sub (USD_Worldwide_Gross r) (USD_Production_Budget r))
           (with_Profit df) /\
    Forall (fun r : FilmP =>
              Float64.is_nan (Profit r) = false ->
              Float64.eqb (Profit r)
                (Float64.sub (USD_Worldwide_Gross r) (USD_Production_Budget r))
              = true)
           (with_Profit df).
Proof.
  intros df. rewrite with_Profit_rows. split; [|split].
  - rewrite map_map. simpl. apply map_id.
  - apply Forall_forall. intros r Hin.
    apply in_map_iff in Hin. destruct Hin as (r0 & <- & _). reflexivity.
  - apply Forall_forall. intros r Hin.
    apply in_map_iff in Hin. destruct Hin as (r0 & <- & _). simpl.
    apply FloatOrder.eqb_refl.
Qed.

Example Profit_of_whole_dollars :
  map Profit
    (with_Profit
       [mkFilm "The Birth of a Nation" NaT (Float64.of_Z 110000)
          (Float64.of_Z 10000000) (Float64.of_Z 11000000)])
  = [Float64.of_Z 10890000].
Proof. reflexivity. Qed.

(** ** Step 6 *)

Lemma bottom_25_filter :
  forall df : list FilmP,
    bottom_25 df
    = filter (fun r : FilmP => Float64.leb (USD_Worldwide_Gross r) (q1 df)) df.
Proof.
  intros df. unfold bottom_25.
  apply (getitem_mask_filter (fun x => Float64.leb x (q1 df))).
Qed.

(** *** The index of the first quartile *)

Module IndexArith.











(** The fraction [r / 4] as a float, for [r] from 0 to 3. *)









End IndexArith.

(** *** The sorted values and the quantile *)











Lemma profitable_cnt_filter :
  forall df : list FilmP,
    profitable_cnt df
    = len (filter (fun r : FilmP => Float64.gtb (Profit r) (Float64.of_Z 0))
                  (bottom_25 df)).
Proof.
  intros df. unfold profitable_cnt. rewrite map_map.
  apply (sum_bool_filter (fun r : FilmP => Float64.gtb (Profit r) (Float64.of_Z 0))).
Qed.

Lemma profitable_plus_loss_is_subset_size_aux :
  forall df : list FilmP,
    loss_cnt df
    = len (filter (fun r : FilmP => negb (Float64.gtb (Profit r) (Float64.of_Z 0)))
                  (bottom_25 df)) /\
    profitable_cnt df + loss_cnt df = len (bottom_25 df).
Proof.
  intros df. unfold loss_cnt. rewrite profitable_cnt_filter. split; [|lia].
  unfold len.
  pose proof (filter_length_split
                (fun r : FilmP => Float64.gtb (Profit r) (Float64.of_Z 0))
                (bottom_25 df)) as H.
  lia.
Qed.

(** C8.  The count of profitable rows (Profit > 0) and the count of
    loss-making rows add up to the size of the bottom-quartile subset;
    the loss count is the number of rows of the subset that are not
    profitable, and a row that breaks even (Profit equal to 0) is one of
    them. *)
Theorem profitable_plus_loss_is_subset_size :
  forall df : list FilmP,
    profitable_cnt df + loss_cnt df = len (bottom_25 df) /\
    profitable_cnt df
    = len (filter (fun r : FilmP => Float64.gtb (Profit r) (Float64.of_Z 0))
                  (bottom_25 df)) /\
    loss_cnt df
    = len (filter (fun r : FilmP => negb (Float64.gtb (Profit r) (Float64.of_Z 0)))
                  (bottom_25 df)) /\
    (forall r : FilmP,
        Float64.eqb (Profit r) (Float64.of_Z 0) = true ->
        negb (Float64.gtb (Profit r) (Float64.of_Z 0)) = true).
Proof.
  intros df. destruct (profitable_plus_loss_is_subset_size_aux df) as [Hl Hs].
  split; [exact Hs|]. split; [apply profitable_cnt_filter|]. split; [exact Hl|].
  intros r H. rewrite (FloatOrder.eqb_not_gtb _ _ H). reflexivity.
Qed.

(** C3.  When the bottom-quartile subset is empty, line 59 divides a
    count of zero by a length of zero: nothing guards the division, and
    its value, the percentage reported, is NaN. *)
Theorem pct_profitable_divides_by_zero :
  forall df : list FilmP,
    bottom_25 df = [] ->
    len (bottom_25 df) = 0 /\
    profitable_cnt df = 0 /\
    pct_profitable df
    = Float64.mul (Float64.div (Float64.of_Z 0) (Float64.of_Z 0)) (Float64.of_Z 100) /\
    pct_profitable df = Float64.nan.
Proof.
  intros df H. unfold pct_profitable, profitable_cnt. rewrite H.
  repeat split; reflexivity.
Qed.

Lemma bottom_25_empty_of_no_gross :
  forall df : list FilmP,
    Forall (fun r : FilmP => Float64.is_nan (USD_Worldwide_Gross r) = true) df ->
    bottom_25 df = [].
Proof.
  intros df H. rewrite bottom_25_filter. generalize (q1 df). intros q.
  induction H as [|r l Hr _ IH]; simpl; [reflexivity|].
  rewrite IH. destruct (USD_Worldwide_Gross r); try discriminate. reflexivity.
Qed.

(** The table [df_no_gross] has an empty bottom quartile. *)
Lemma pct_profitable_divides_by_zero_witness :
  bottom_25 df_no_gross = [] /\
  pct_profitable df_no_gross = Float64.nan.
Proof.
  split; [reflexivity|].
  apply (pct_profitable_divides_by_zero df_no_gross). reflexivity.
Defined.

Lemma loss_cnt_counts_nonpositive :
  forall df : list FilmP,
    Forall (fun r : FilmP => Float64.is_nan (Profit r) = false) (bottom_25 df) ->
    loss_cnt df
    = len (filter (fun r : FilmP => Float64.leb (Profit r) (Float64.of_Z 0))
                  (bottom_25 df)).
Proof.
  intros df H.
  destruct (profitable_plus_loss_is_subset_size_aux df) as [-> _].
  unfold len. f_equal. f_equal.
  induction H as [|r l Hr _ IH]; [reflexivity|]. cbn [filter].
  rewrite (FloatOrder.gtb_negb_leb (Profit r) (Float64.of_Z 0) Hr eq_refl),
    negb_involutive, IH.
  reflexivity.
Qed.

(** ** Steps 2 and 3 *)

Lemma Forall2_map_left {A B C : Type} (P : B -> C -> Prop) (f : A -> B) :
  forall l l', Forall2 P (map f l) l' -> Forall2 (fun a c => P (f a) c) l l'.
Proof.
  induction l as [|a l IH]; simpl; intros l' H; inversion H; subst;
    constructor; auto.
Qed.



Section Coercion.

Variable read : string -> option Timestamp.

Lemma to_datetime_cell_coerce :
  forall c : cell, to_datetime_cell read errors_coerce c = Ok (coerced read c).
Proof.
  intros [s|]; simpl; [|reflexivity].
  destruct (is_null_string s); [reflexivity|].
  destruct (read s); reflexivity.
Qed.





Lemma coerce_column :
  forall col : list cell,
    mapM (to_datetime_cell read errors_coerce) col = Ok (map (coerced read) col).
Proof.
  intros col. apply mapM_pure. apply to_datetime_cell_coerce.
Qed.



End Coercion.

Section CleanerFacts.

Variable guess : bool -> string -> option string.
Variable strptime : string -> string -> option Timestamp.
Variable parse : bool -> string -> option Timestamp.

Lemma to_datetime_coerce_never_raises_aux :
  forall col : list cell,
    to_datetime guess strptime parse false errors_coerce col
    = Ok (map (coerced (column_reader guess strptime parse false col)) col).
Proof.
  intros col. unfold to_datetime. apply coerce_column.
Qed.


Lemma frame_cleaned (read : string -> option Timestamp) :
  forall raw pb wg dg,
    Forall2 (fun r b => float_of_cell (replace_regex (raw_USD_Production_Budget r)) = Ok b)
            raw pb ->
    Forall2 (fun r w => float_of_cell (replace_regex (raw_USD_Worldwide_Gross r)) = Ok w)
            raw wg ->
    Forall2 (fun r g => float_of_cell (replace_regex (raw_USD_Domestic_Gross r)) = Ok g)
            raw dg ->
    Forall2 (cleaned read) raw
      (frame raw (map (coerced read) (map raw_Release_Date raw)) pb wg dg).
Proof.
  induction raw as [|r raw IH]; intros pb wg dg Hb Hw Hg;
    inversion Hb; inversion Hw; inversion Hg; subst; simpl; constructor.
  - unfold cleaned; simpl. auto.
  - apply IH; assumption.
Qed.

Lemma clean_column (f : RawFilm -> cell) :
  forall raw col,
    mapM float_of_cell (map replace_regex (map f raw)) = Ok col ->
    Forall2 (fun r b => float_of_cell (replace_regex (f r)) = Ok b) raw col.
Proof.
  intros raw col H. apply mapM_Ok in H.
  apply Forall2_map_left in H. apply Forall2_map_left in H. exact H.
Qed.

Lemma Cleaner_Ok :
  forall raw df,
    Cleaner guess strptime parse raw = Ok df ->
    Forall2
      (cleaned (column_reader guess strptime parse false (map raw_Release_Date raw)))
      raw df.
Proof.
  intros raw df. unfold Cleaner, clean_currency, astype_float.
  destruct (mapM float_of_cell (map replace_regex (map raw_USD_Production_Budget raw)))
    as [pb|e] eqn:Hb; simpl; [|discriminate].
  destruct (mapM float_of_cell (map replace_regex (map raw_USD_Worldwide_Gross raw)))
    as [wg|e] eqn:Hw; simpl; [|discriminate].
  destruct (mapM float_of_cell (map replace_regex (map raw_USD_Domestic_Gross raw)))
    as [dg|e] eqn:Hg; simpl; [|discriminate].
  rewrite to_datetime_coerce_never_raises_aux. simpl.
  intros H. injection H as <-.
  apply frame_cleaned.
  - apply clean_column. assumption.
  - apply clean_column. assumption.
  - apply clean_column. assumption.
Qed.

Lemma Cleaner_Raise :
  forall raw e,
    Cleaner guess strptime parse raw = Raise e ->
    exists r c,
      In r raw /\ In c (currency_cells r) /\
      float_of_cell (replace_regex c) = Raise e.
Proof.
  intros raw e. unfold Cleaner, clean_currency, astype_float.
  assert (Hcol : forall f : RawFilm -> cell,
             mapM float_of_cell (map replace_regex (map f raw)) = Raise e ->
             exists r, In r raw /\ float_of_cell (replace_regex (f r)) = Raise e).
  { intros f H. apply mapM_Raise in H. destruct H as (c & Hin & Hc).
    apply in_map_iff in Hin. destruct Hin as (c0 & <- & Hin).
    apply in_map_iff in Hin. destruct Hin as (r & <- & Hin).
    exists r. auto. }
  destruct (mapM float_of_cell (map replace_regex (map raw_USD_Production_Budget raw)))
    as [pb|e1] eqn:Hb; simpl.
  2:{ intros H. injection H as ->. destruct (Hcol _ Hb) as (r & Hin & Hr).
      exists r, (raw_USD_Production_Budget r). unfold currency_cells. simpl. tauto. }
  destruct (mapM float_of_cell (map replace_regex (map raw_USD_Worldwide_Gross raw)))
    as [wg|e2] eqn:Hw; simpl.
  2:{ intros H. injection H as ->. destruct (Hcol _ Hw) as (r & Hin & Hr).
      exists r, (raw_USD_Worldwide_Gross r). unfold currency_cells. simpl. tauto. }
  destruct (mapM float_of_cell (map replace_regex (map raw_USD_Domestic_Gross raw)))
    as [dg|e3] eqn:Hg; simpl.
  2:{ intros H. injection H as ->. destruct (Hcol _ Hg) as (r & Hin & Hr).
      exists r, (raw_USD_Domestic_Gross r). unfold currency_cells. simpl. tauto. }
  rewrite to_datetime_coerce_never_raises_aux. simpl. discriminate.
Qed.

End CleanerFacts.


(** A column as the data file has it, with a string that is no date and
    a missing cell. *)
Example to_datetime_of_file_column :
  to_datetime Dates.guess_numeric_format Dates.strptime_numeric
    Dates.parse_numeric_date false errors_coerce
    [NA; Str "8/2/1915"; Str "to be announced"; Str "12/31/2017"; Str "NaT"]
  = Ok [NaT; Stamp (mkTimestamp 1915 8 2 0); NaT;
        Stamp (mkTimestamp 2017 12 31 0); NaT].
Proof. reflexivity. Qed.

(** With [errors="raise"] the same column raises. *)
Example to_datetime_raise_of_file_column :
  exists e,
    to_datetime Dates.guess_numeric_format Dates.strptime_numeric
      Dates.parse_numeric_date false errors_raise
      [NA; Str "8/2/1915"; Str "to be announced"]
    = Raise e.
Proof. eexists. reflexivity. Qed.

(** A day that nanoseconds cannot count is no timestamp. *)
Example to_datetime_out_of_bounds :
  to_datetime Dates.guess_numeric_format Dates.strptime_numeric
    Dates.parse_numeric_date false errors_coerce
    [Str "1/1/1500"; Str "9/22/1677"; Str "4/12/2262"]
  = Ok [NaT; Stamp (mkTimestamp 1677 9 22 0); NaT].
Proof. reflexivity. Qed.

(** ** Step 4 *)

Lemma min_all_missing :
  forall col : list datetime, Forall (fun d => d = NaT) col -> Dates.min col = NaT.
Proof.
  intros col H. induction H as [|d l Hd _ IH]; simpl; [reflexivity|].
  rewrite Hd. exact IH.
Qed.

Lemma max_all_missing :
  forall col : list datetime, Forall (fun d => d = NaT) col -> Dates.max col = NaT.
Proof.
  intros col H. induction H as [|d l Hd _ IH]; simpl; [reflexivity|].
  rewrite Hd. exact IH.
Qed.

Lemma release_date_range_returns :
  forall df : list Film, exists lo hi, release_date_range df = Ok (lo, hi).
Proof.
  intros df. unfold release_date_range.
  destruct (Dates.min (map Release_Date df)), (Dates.max (map Release_Date df));
    simpl; eauto.
Qed.

(** C10 as stated does not hold: on a table in which no release date
    can be read the overview line does not raise; it reports the pair
    [NaT], [NaT]. *)
Lemma overview_of_undated_table_does_not_raise :
  exists df : list Film,
    Cleaner Dates.guess_numeric_format Dates.strptime_numeric
      Dates.parse_numeric_date raw_all_undated = Ok df /\
    Forall (fun r => Release_Date r = NaT) df /\
    release_date_range df = Ok (date_NaT, date_NaT) /\
    ~ (exists e, release_date_range df = Raise e).
Proof.
  eexists. split; [vm_compute; reflexivity|]. split; [|split].
  - repeat constructor.
  - reflexivity.
  - intros [e H]. discriminate H.
Qed.

(** C10, amended.  When every release date is missing, the minimum and
    the maximum of the date column are [NaT], [.date()] hands [NaT] back
    for each, and the overview line reports [NaT] for both ends of the
    range without raising. *)
Theorem release_date_range_all_missing :
  forall df : list Film,
    Forall (fun r => Release_Date r = NaT) df ->
    Dates.min (map Release_Date df) = NaT /\
    Dates.max (map Release_Date df) = NaT /\
    Dates.date_method NaT = Ok date_NaT /\
    release_date_range df = Ok (date_NaT, date_NaT).
Proof.
  intros df H.
  assert (Hcol : Forall (fun d => d = NaT) (map Release_Date df)).
  { apply Forall_forall. intros d Hd. apply in_map_iff in Hd.
    destruct Hd as (r & <- & Hr). rewrite Forall_forall in H. auto. }
  unfold release_date_range.
  rewrite (min_all_missing _ Hcol), (max_all_missing _ Hcol).
  repeat split; reflexivity.
Qed.

(** A table of one film without a release date. *)
Lemma release_date_range_all_missing_witness :
  release_date_range
    [mkFilm "Untitled" NaT (Float64.of_Z 1000) (Float64.of_Z 0) (Float64.of_Z 5000)]
  = Ok (date_NaT, date_NaT).
Proof.
  apply (release_date_range_all_missing
           [mkFilm "Untitled" NaT (Float64.of_Z 1000) (Float64.of_Z 0)
              (Float64.of_Z 5000)]).
  repeat constructor.
Defined.

(** ** Step 11 *)

Lemma data_clean_filter :
  forall df : list FilmP,
    data_clean df = filter (fun r : FilmP => Dates.leb (Release_Date r) cutoff) df.
Proof.
  intros df. unfold data_clean.
  apply (getitem_mask_filter (fun d => Dates.leb d cutoff)).
Qed.

Lemma unreleased_filter :
  forall df : list FilmP,
    unreleased df = filter (fun r : FilmP => Dates.gtb (Release_Date r) cutoff) df.
Proof.
  intros df. unfold unreleased.
  apply (getitem_mask_filter (fun d => Dates.gtb d cutoff)).
Qed.

(** C1 as stated does not hold: the second film of [raw_undated] has
    a release date that cannot be parsed, and it is not in the
    regression's input. *)
Lemma undated_row_not_in_regression_input :
  exists (df : list Film) (r : FilmP),
    Cleaner Dates.guess_numeric_format Dates.strptime_numeric
      Dates.parse_numeric_date raw_undated = Ok df /\
    In r (with_Profit df) /\
    raw_Release_Date (nth 1 raw_undated (mkRawFilm "" NA NA NA NA))
    = Str "to be announced" /\
    column_reader Dates.guess_numeric_format Dates.strptime_numeric
      Dates.parse_numeric_date false (map raw_Release_Date raw_undated)
      "to be announced" = None /\
    Release_Date r = NaT /\
    ~ In r (data_clean (with_Profit df)) /\
    ~ In (USD_Worldwide_Gross r) (y (with_Profit df)).
Proof.
  eexists. eexists. split; [vm_compute; reflexivity|].
  split; [right; left; reflexivity|].
  split; [reflexivity|]. split; [reflexivity|]. split; [reflexivity|]. split.
  - vm_compute. intros [H|[]]. discriminate H.
  - vm_compute. intros [H|[]]. discriminate H.
Qed.

Lemma missing_date_in_neither_subset_aux :
  forall df : list FilmP,
    data_clean df
    = filter (fun r : FilmP => Dates.leb (Release_Date r) cutoff) df /\
    unreleased df
    = filter (fun r : FilmP => Dates.gtb (Release_Date r) cutoff) df /\
    (forall r : FilmP,
        Release_Date r = NaT ->
        ~ In r (data_clean df) /\ ~ In r (unreleased df)).
Proof.
  intros df. split; [apply data_clean_filter|]. split; [apply unreleased_filter|].
  intros r Hr. rewrite data_clean_filter, unreleased_filter. split.
  - intros H. apply filter_In in H. destruct H as [_ H].
    rewrite Hr in H. discriminate H.
  - intros H. apply filter_In in H. destruct H as [_ H].
    rewrite Hr in H. discriminate H.
Qed.

(** C1, amended.  The regression's input keeps exactly the rows whose
    parsed release date is on or before the cutoff, and the unreleased
    rows are exactly those strictly after it.  Every comparison with a
    missing date is false, so a row whose release date could not be parsed
    is in neither: it is not counted as unreleased, and it is not in the
    regression's input. *)
Theorem missing_date_in_neither_subset :
  forall df : list FilmP,
    data_clean df
    = filter (fun r : FilmP => Dates.leb (Release_Date r) cutoff) df /\
    unreleased df
    = filter (fun r : FilmP => Dates.gtb (Release_Date r) cutoff) df /\
    (forall r : FilmP,
        Release_Date r = NaT ->
        ~ In r (data_clean df) /\ ~ In r (unreleased df)).
Proof.
  intros df. pose proof (missing_date_in_neither_subset_aux df) as H.
  destruct H as (H1 & H2 & H3). split; [exact H1|]. split; [exact H2|exact H3].
Qed.

Lemma cleaned_nth (read : string -> option Timestamp) :
  forall raw df,
    Forall2 (cleaned read) raw df ->
    forall i r, nth_error raw i = Some r ->
                exists f, nth_error df i = Some f /\ cleaned read r f.
Proof.
  intros raw df H. induction H as [|r0 f0 raw df H0 _ IH]; intros i r Hi.
  - destruct i; discriminate Hi.
  - destruct i as [|i]; simpl in *.
    + injection Hi as <-. exists f0. split; [reflexivity|assumption].
    + apply IH. assumption.
Qed.

(** From the file to the regression: a row whose date string the reader
    of the column cannot read leaves the Cleaner with [NaT] and is
    dropped by the cutoff filter. *)
Lemma unparsed_row_is_dropped :
  forall (guess : bool -> string -> option string)
         (strptime : string -> string -> option Timestamp)
         (parse : bool -> string -> option Timestamp) raw df i r s,
    Cleaner guess strptime parse raw = Ok df ->
    nth_error raw i = Some r ->
    raw_Release_Date r = Str s ->
    column_reader guess strptime parse false (map raw_Release_Date raw) s = None ->
    exists p : FilmP,
      nth_error (with_Profit df) i = Some p /\
      Release_Date p = NaT /\
      ~ In p (data_clean (with_Profit df)) /\
      ~ In p (unreleased (with_Profit df)).
Proof.
  intros guess strptime parse raw df i r s Hc Hi Hd Hs.
  destruct (cleaned_nth _ raw df (Cleaner_Ok _ _ _ _ _ Hc) i r Hi)
    as (f & Hf & _ & Hdate & _).
  rewrite Hd in Hdate. simpl in Hdate. rewrite Hs in Hdate.
  assert (Hnat : Release_Date f = NaT)
    by (rewrite Hdate; destruct (is_null_string s); reflexivity).
  exists (mkFilmP f (Float64.sub (USD_Worldwide_Gross f) (USD_Production_Budget f))).
  split.
  - rewrite with_Profit_rows, nth_error_map, Hf. reflexivity.
  - split; [exact Hnat|].
    apply (proj2 (proj2 (missing_date_in_neither_subset_aux (with_Profit df)))).
    exact Hnat.
Qed.

(** ** Step 13 *)

Lemma add_comm : forall x y : float, Float64.add x y = Float64.add y x.
Proof.
  intros [[]|[]| |sx mx ex] [[]|[]| |sy my ey]; try reflexivity.
  unfold Float64.add, SFadd.
  rewrite (Z.min_comm ey ex).
  rewrite (Z.add_comm (cond_Zopp sy _)). reflexivity.
Qed.

Lemma mul_comm : forall x y : float, Float64.mul x y = Float64.mul y x.
Proof.
  intros [sx|sx| |sx mx ex] [sy|sy| |sy my ey]; try reflexivity;
    unfold Float64.mul, SFmul; rewrite (xorb_comm sy sx); try reflexivity.
  rewrite (Pos.mul_comm my mx), (Z.add_comm ey ex). reflexivity.
Qed.

Lemma predict_single :
  forall (a b x : float),
    predict (mkLinearRegression a [b]) [[x]]
    = [Float64.add a (Float64.mul b x)].
Proof.
  intros a b x. unfold predict. simpl.
  rewrite (add_comm (Float64.mul x b) a), (mul_comm x b). reflexivity.
Qed.

(** C9.  For the fitted intercept [theta_0] and slope [theta_1], the two
    reported predictions are [theta_0 + theta_1 * budget] at the budgets
    150,000,000 and 350,000,000, evaluated in binary64 arithmetic and
    equal to it bit for bit. *)
Theorem predictions_are_theta_0_plus_theta_1_budget :
  forall (least_squares : list float -> list float -> float * float)
         (df : list FilmP),
    predictions least_squares df
    = map (fun budget =>
             (budget,
              Float64.add (theta_0 (fit least_squares (X df) (y df)))
                (Float64.mul (theta_1 (fit least_squares (X df) (y df)))
                   (Float64.of_Z budget))))
          [150000000; 350000000].
Proof.
  intros least_squares df. unfold predictions, fit.
  destruct (least_squares _ _) as [a b].
  unfold theta_0, theta_1. cbn [intercept_ coef_ nth map].
  rewrite !predict_single. reflexivity.
Qed.

(** ** Step 8 *)

Section FirstBest.

Variables better covers : float -> float -> bool.

Hypothesis better_covers_trans :
  forall x b y, better x b = true -> covers b y = true -> better x y = true.
Hypothesis better_covers :
  forall x y, better x y = true -> covers x y = true.
Hypothesis covers_refl :
  forall x, Float64.is_nan x = false -> covers x x = true.
Hypothesis covers_total :
  forall x b,
    Float64.is_nan x = false -> Float64.is_nan b = false ->
    better x b = false -> covers b x = true.

Lemma scan_from_first_best :
  forall l pre b bi,
    Forall (fun x => Float64.is_nan x = false) (pre ++ l) ->
    first_best better covers pre bi b ->
    exists v,
      first_best better covers (pre ++ l)
        (Extremes.scan_from better l (List.length pre) bi b) v.
Proof.
  induction l as [|x l IH]; intros pre b bi Hnan [Hb Hall].
  - rewrite app_nil_r. exists b. split; assumption.
  - assert (Hbi : (bi < List.length pre)%nat).
    { apply (proj1 (nth_error_Some pre bi)). intros E.
      discriminate (eq_trans (eq_sym E) Hb). }
    assert (Hx : Float64.is_nan x = false).
    { rewrite Forall_forall in Hnan. apply Hnan.
      apply in_or_app. right. left. reflexivity. }
    assert (Hbn : Float64.is_nan b = false).
    { rewrite Forall_forall in Hnan. apply Hnan.
      apply in_or_app. left. eapply nth_error_In. exact Hb. }
    assert (Hlen : List.length (pre ++ [x]) = S (List.length pre)).
    { rewrite length_app. simpl. lia. }
    replace (pre ++ x :: l) with ((pre ++ [x]) ++ l) in *
      by (rewrite <- app_assoc; reflexivity).
    simpl. destruct (better x b) eqn:Hbetter.
    + rewrite <- Hlen. apply IH; [assumption|]. split.
      * rewrite nth_error_app2 by lia. rewrite Nat.sub_diag. reflexivity.
      * intros j z Hj.
        destruct (Nat.lt_ge_cases j (List.length pre)) as [Hlt|Hge].
        -- rewrite nth_error_app1 in Hj by assumption.
           destruct (Hall j z Hj) as [Hc _].
           assert (better x z = true) by eauto.
           split; auto.
        -- rewrite nth_error_app2 in Hj by assumption.
           destruct (j - List.length pre)%nat as [|d] eqn:Hd.
           ++ injection Hj as <-. split; [auto|]. intros; lia.
           ++ destruct d; discriminate Hj.
    + rewrite <- Hlen. apply IH; [assumption|]. split.
      * rewrite nth_error_app1 by assumption. exact Hb.
      * intros j z Hj.
        destruct (Nat.lt_ge_cases j (List.length pre)) as [Hlt|Hge].
        -- rewrite nth_error_app1 in Hj by assumption. apply Hall. exact Hj.
        -- rewrite nth_error_app2 in Hj by assumption.
           destruct (j - List.length pre)%nat as [|d] eqn:Hd.
           ++ injection Hj as <-. split; [auto|]. intros; lia.
           ++ destruct d; discriminate Hj.
Qed.

Lemma scan_first_best :
  forall l,
    l <> [] ->
    Forall (fun x => Float64.is_nan x = false) l ->
    exists v, first_best better covers l (Extremes.scan better l) v.
Proof.
  intros [|x l] Hne Hnan; [congruence|]. unfold Extremes.scan.
  apply (scan_from_first_best l [x] x 0%nat Hnan).
  split; [reflexivity|].
  intros [|j] z Hj; simpl in Hj.
  - injection Hj as <-. split; [|intros; lia].
    apply covers_refl. inversion Hnan; assumption.
  - destruct j; discriminate Hj.
Qed.

End FirstBest.

Lemma filled_no_nan :
  forall (v : float) (col : list float),
    Float64.is_nan v = false -> no_nan (map (Extremes.fillna v) col).
Proof.
  intros v col Hv. apply Forall_forall. intros x Hx.
  apply in_map_iff in Hx. destruct Hx as (x0 & <- & _).
  unfold Extremes.fillna. destruct (Float64.is_nan x0) eqn:E; assumption.
Qed.

(** With missing values in the column, the scan runs over the column in
    which each of them stands as the infinity that cannot win. *)
Lemma idxmax_of_filled :
  forall col : list float,
    forallb Float64.is_nan col = false ->
    exists i v,
      Extremes.idxmax col = Ok i /\
      first_best Float64.gtb (fun b x => Float64.leb x b)
        (map (Extremes.fillna Float64.neg_inf) col) i v.
Proof.
  intros col H.
  assert (Hne : map (Extremes.fillna Float64.neg_inf) col <> []).
  { destruct col; [discriminate H|discriminate]. }
  pose proof (filled_no_nan Float64.neg_inf col eq_refl) as Hnan.
  destruct (scan_first_best Float64.gtb (fun b x => Float64.leb x b))
    with (l := map (Extremes.fillna Float64.neg_inf) col) as [v Hv];
    try assumption.
  - intros x b z H1 H2. unfold Float64.gtb in *.
    exact (FloatOrder.leb_ltb_trans z b x H2 H1).
  - intros x z Hx. apply FloatOrder.ltb_leb. exact Hx.
  - apply FloatOrder.leb_refl.
  - intros x b Hx Hb Hxb. rewrite (FloatOrder.gtb_negb_leb x b Hx Hb) in Hxb.
    destruct (Float64.leb x b); [reflexivity|discriminate Hxb].
  - exists (Extremes.argmax (map (Extremes.fillna Float64.neg_inf) col)), v.
    split; [|exact Hv]. unfold Extremes.idxmax.
    destruct col; [discriminate H|]. rewrite H. reflexivity.
Qed.

Lemma idxmin_of_filled :
  forall col : list float,
    forallb Float64.is_nan col = false ->
    exists i v,
      Extremes.idxmin col = Ok i /\
      first_best Float64.ltb Float64.leb
        (map (Extremes.fillna Float64.pos_inf) col) i v.
Proof.
  intros col H.
  assert (Hne : map (Extremes.fillna Float64.pos_inf) col <> []).
  { destruct col; [discriminate H|discriminate]. }
  pose proof (filled_no_nan Float64.pos_inf col eq_refl) as Hnan.
  destruct (scan_first_best Float64.ltb Float64.leb)
    with (l := map (Extremes.fillna Float64.pos_inf) col) as [v Hv];
    try assumption.
  - exact FloatOrder.ltb_leb_trans.
  - exact FloatOrder.ltb_leb.
  - apply FloatOrder.leb_refl.
  - intros x b Hx Hb Hxb.
    pose proof (FloatOrder.gtb_negb_leb b x Hb Hx) as G.
    unfold Float64.gtb in G. unfold Float64.ltb in Hxb. rewrite Hxb in G.
    destruct (Float64.leb b x); [reflexivity|discriminate G].
  - exists (Extremes.argmin (map (Extremes.fillna Float64.pos_inf) col)), v.
    split; [|exact Hv]. unfold Extremes.idxmin.
    destruct col; [discriminate H|]. rewrite H. reflexivity.
Qed.

(** A row found through a column: the row at the position of the
    column's first best value. *)
Lemma first_best_row
  (better covers : float -> float -> bool) (field : FilmP -> float) :
  forall (df : list FilmP) (i : nat) (v : float),
    first_best better covers (map field df) i v ->
    exists r,
      loc df i = Ok r /\ nth_error df i = Some r /\
      forall n r', nth_error df n = Some r' ->
                   covers (field r) (field r') = true /\
                   ((n < i)%nat -> better (field r) (field r') = true).
Proof.
  intros df i v [Hv Hall]. rewrite nth_error_map in Hv.
  destruct (nth_error df i) as [r|] eqn:Hr; [|discriminate Hv].
  injection Hv as <-. exists r. unfold loc. rewrite Hr.
  split; [reflexivity|]. split; [reflexivity|].
  intros n r' Hn. apply Hall. rewrite nth_error_map, Hn. reflexivity.
Qed.

Lemma first_maximum_row (field : FilmP -> float) :
  forall df : list FilmP,
    forallb Float64.is_nan (map field df) = false ->
    exists i r,
      (i' <- Extremes.idxmax (map field df) ;; loc df i') = Ok r /\
      first_maximum field df i r.
Proof.
  intros df H. destruct (idxmax_of_filled _ H) as (i & v & Hi & Hv).
  rewrite map_map in Hv.
  destruct (first_best_row _ _ (fun r => Extremes.fillna Float64.neg_inf (field r))
              df i v Hv) as (r & Hloc & Hr & Hall).
  exists i, r. rewrite Hi. simpl. split; [exact Hloc|].
  split; [exact Hr|]. intros n r' Hn. destruct (Hall n r' Hn) as [H1 H2].
  split; [exact H1|exact H2].
Qed.

Lemma first_minimum_row (field : FilmP -> float) :
  forall df : list FilmP,
    forallb Float64.is_nan (map field df) = false ->
    exists i r,
      (i' <- Extremes.idxmin (map field df) ;; loc df i') = Ok r /\
      first_minimum field df i r.
Proof.
  intros df H. destruct (idxmin_of_filled _ H) as (i & v & Hi & Hv).
  rewrite map_map in Hv.
  destruct (first_best_row _ _ (fun r => Extremes.fillna Float64.pos_inf (field r))
              df i v Hv) as (r & Hloc & Hr & Hall).
  exists i, r. rewrite Hi. simpl. split; [exact Hloc|].
  split; [exact Hr|]. intros n r' Hn. destruct (Hall n r' Hn) as [H1 H2].
  split; [exact H1|exact H2].
Qed.

Lemma first_maximum_plain (field : FilmP -> float) :
  forall (df : list FilmP) (i : nat) (r : FilmP),
    first_maximum field df i r ->
    Exists (fun r' : FilmP => Float64.ltb Float64.neg_inf (field r') = true) df ->
    maximum_on_file field df i r.
Proof.
  intros df i r [Hi H] Hex.
  assert (Hr : Float64.is_nan (field r) = false).
  { apply Exists_exists in Hex. destruct Hex as (r0 & Hin & H0).
    apply In_nth_error in Hin. destruct Hin as [n0 Hn0].
    destruct (H n0 r0 Hn0) as [Hle _].
    assert (N0 : Float64.is_nan (field r0) = false)
      by (destruct (field r0) as [[]|[]| |[] m e]; try reflexivity; discriminate H0).
    unfold Extremes.fillna in Hle. rewrite N0 in Hle.
    pose proof (FloatOrder.ltb_leb_trans _ _ _ H0 Hle) as Hlt.
    destruct (Float64.is_nan (field r)); [discriminate Hlt|reflexivity]. }
  split; [exact Hr|]. intros n r' Hn Hr'. specialize (H n r' Hn).
  unfold Extremes.fillna in H. rewrite Hr, Hr' in H. exact H.
Qed.

Lemma first_minimum_plain (field : FilmP -> float) :
  forall (df : list FilmP) (i : nat) (r : FilmP),
    first_minimum field df i r ->
    Exists (fun r' : FilmP => Float64.ltb (field r') Float64.pos_inf = true) df ->
    minimum_on_file field df i r.
Proof.
  intros df i r [Hi H] Hex.
  assert (Hr : Float64.is_nan (field r) = false).
  { apply Exists_exists in Hex. destruct Hex as (r0 & Hin & H0).
    apply In_nth_error in Hin. destruct Hin as [n0 Hn0].
    destruct (H n0 r0 Hn0) as [Hle _].
    assert (N0 : Float64.is_nan (field r0) = false)
      by (destruct (field r0) as [[]|[]| |[] m e]; try reflexivity; discriminate H0).
    unfold Extremes.fillna in Hle. rewrite N0 in Hle.
    pose proof (FloatOrder.leb_ltb_trans _ _ _ Hle H0) as Hlt.
    destruct (Float64.is_nan (field r)); [discriminate Hlt|reflexivity]. }
  split; [exact Hr|]. intros n r' Hn Hr'. specialize (H n r' Hn).
  unfold Extremes.fillna in H. rewrite Hr, Hr' in H. exact H.
Qed.

(** C7.  Whenever a column has a value at all, the extremes report picks
    the row of maximum Production Budget, the row of maximum Worldwide
    Gross and the row of minimum Production Budget, a missing value
    standing as the infinity that cannot win; and each is the first such
    row in table order: every earlier row is strictly below the maximum,
    or strictly above the minimum.  When some value on file is not that
    infinity, the row picked has its value on file, no value on file
    beats it, and every earlier value on file is strictly worse. *)
Theorem extremes_select_first_extreme_row :
  forall df : list FilmP,
    (forallb Float64.is_nan (map (fun r : FilmP => USD_Production_Budget r) df)
     = false ->
     exists i r,
       max_budget_row df = Ok r /\
       first_maximum (fun r : FilmP => USD_Production_Budget r) df i r /\
       (Exists (fun r' : FilmP =>
                  Float64.ltb Float64.neg_inf (USD_Production_Budget r') = true) df ->
        maximum_on_file (fun r : FilmP => USD_Production_Budget r) df i r)) /\
    (forallb Float64.is_nan (map (fun r : FilmP => USD_Worldwide_Gross r) df)
     = false ->
     exists i r,
       max_gross_row df = Ok r /\
       first_maximum (fun r : FilmP => USD_Worldwide_Gross r) df i r /\
       (Exists (fun r' : FilmP =>
                  Float64.ltb Float64.neg_inf (USD_Worldwide_Gross r') = true) df ->
        maximum_on_file (fun r : FilmP => USD_Worldwide_Gross r) df i r)) /\
    (forallb Float64.is_nan (map (fun r : FilmP => USD_Production_Budget r) df)
     = false ->
     exists i r,
       min_budget_row df = Ok r /\
       first_minimum (fun r : FilmP => USD_Production_Budget r) df i r /\
       (Exists (fun r' : FilmP =>
                  Float64.ltb (USD_Production_Budget r') Float64.pos_inf = true) df ->
        minimum_on_file (fun r : FilmP => USD_Production_Budget r) df i r)).
Proof.
  intros df. split; [|split]; intros H.
  - destruct (first_maximum_row _ df H) as (i & r & H1 & H2).
    exists i, r. split; [exact H1|]. split; [exact H2|].
    apply first_maximum_plain. exact H2.
  - destruct (first_maximum_row _ df H) as (i & r & H1 & H2).
    exists i, r. split; [exact H1|]. split; [exact H2|].
    apply first_maximum_plain. exact H2.
  - destruct (first_minimum_row _ df H) as (i & r & H1 & H2).
    exists i, r. split; [exact H1|]. split; [exact H2|].
    apply first_minimum_plain. exact H2.
Qed.

(** ** Rounding keeps the sign *)

Module Rounding.

Lemma shr_1_nonneg :
  forall mrs, 0 <= shr_m mrs -> 0 <= shr_m (shr_1 mrs).
Proof.
  intros [m r s] H. simpl in *.
  destruct m as [|[p|p|]|[p|p|]]; simpl; lia.
Qed.

Lemma iter_pos_nonneg :
  forall (p : positive) mrs,
    0 <= shr_m mrs -> 0 <= shr_m (iter_pos shr_1 p mrs).
Proof.
  induction p as [p IH|p IH|]; intros mrs H; simpl.
  - apply IH, IH, shr_1_nonneg, H.
  - apply IH, IH, H.
  - apply shr_1_nonneg, H.
Qed.

Lemma shr_nonneg :
  forall mrs e n, 0 <= shr_m mrs -> 0 <= shr_m (fst (shr mrs e n)).
Proof.
  intros mrs e [|p|p] H; simpl; try assumption.
  apply iter_pos_nonneg, H.
Qed.

Lemma shr_fexp_nonneg :
  forall m e l,
    0 <= m -> 0 <= shr_m (fst (shr_fexp Float64.prec Float64.emax m e l)).
Proof.
  intros m e l H. unfold shr_fexp. apply shr_nonneg.
  destruct l as [|[| |]]; simpl; assumption.
Qed.

Lemma round_nearest_even_nonneg :
  forall m l, 0 <= m -> 0 <= round_nearest_even m l.
Proof.
  intros m [|[| |]] H; simpl; try lia.
  destruct (Z.even m); lia.
Qed.

Lemma binary_round_aux_sign_clear :
  forall m e l,
    0 <= m ->
    sign_clear (binary_round_aux Float64.prec Float64.emax false m e l) = true.
Proof.
  intros m e l H. unfold binary_round_aux.
  pose proof (shr_fexp_nonneg m e l H) as H1.
  destruct (shr_fexp Float64.prec Float64.emax m e l) as [mrs' e'].
  simpl in H1.
  pose proof (shr_fexp_nonneg
                (round_nearest_even (shr_m mrs') (loc_of_shr_record mrs'))
                e' loc_Exact
                (round_nearest_even_nonneg _ _ H1)) as H2.
  destruct (shr_fexp Float64.prec Float64.emax _ e' loc_Exact) as [mrs'' e''].
  simpl in H2.
  destruct (shr_m mrs'') as [|p|p]; [reflexivity| |lia].
  destruct (e'' <=? Float64.emax - Float64.prec); reflexivity.
Qed.

Lemma binary_normalize_sign_clear :
  forall z e,
    0 <= z ->
    sign_clear (binary_normalize Float64.prec Float64.emax z e false) = true.
Proof.
  intros [|p|p] e H; [reflexivity| |lia].
  unfold binary_normalize, binary_round.
  destruct (shl_align p e _) as [mz ez].
  apply binary_round_aux_sign_clear. lia.
Qed.

Lemma div_sign_clear :
  forall p q e1 e2,
    sign_clear (Float64.div (S754_finite false p e1) (S754_finite false q e2))
    = true.
Proof.
  intros p q e1 e2. unfold Float64.div, SFdiv, SFdiv_core_binary.
  set (e' := Z.min _ _). set (m' := match _ with Z0 => _ | _ => _ end).
  assert (Hm : 0 <= m').
  { subst m'. destruct (e1 - e2 - e') as [|k|k]; try lia.
    apply Z.shiftl_nonneg. lia. }
  pose proof (Z_div_mod m' (Zpos q) eq_refl) as Hd.
  destruct (Z.div_eucl m' (Zpos q)) as [d r]. simpl.
  apply binary_round_aux_sign_clear. nia.
Qed.

Lemma of_decimal_sign_clear :
  forall m e, sign_clear (Float64.of_decimal false m e) = true.
Proof.
  intros [|p|p] e; try reflexivity. unfold Float64.of_decimal.
  destruct e as [|k|k].
  - apply binary_normalize_sign_clear. unfold cond_Zopp.
    apply Z.mul_nonneg_nonneg; [lia|apply Z.pow_nonneg; lia].
  - apply binary_normalize_sign_clear. unfold cond_Zopp.
    apply Z.mul_nonneg_nonneg; [lia|apply Z.pow_nonneg; lia].
  - apply div_sign_clear.
Qed.

Lemma sign_clear_nonneg :
  forall x : float,
    sign_clear x = true ->
    Float64.leb Float64.zero x = true /\ Float64.is_nan x = false.
Proof.
  intros [[]|[]| |[] m e] H; try discriminate H; split; reflexivity.
Qed.

End Rounding.

(** ** Step 2 *)

Lemma float_of_string_sign_clear :
  forall (s : string) (x : float),
    PyFloat.float_of_string s = Some x ->
    signed_or_nan s = false ->
    sign_clear x = true.
Proof.
  intros s x. unfold PyFloat.float_of_string, PyFloat.float_of_chars, signed_or_nan.
  destruct (Unicode.code_points s) as [text|]; [|discriminate].
  destruct (PyFloat.sign (PyFloat.strip (PyFloat.to_ascii text))) as [neg body].
  intros H Hs. apply orb_false_iff in Hs. destruct Hs as [-> Hnan].
  rewrite Hnan in H.
  destruct (PyFloat.chars_eqb _ _ || PyFloat.chars_eqb _ _).
  - injection H as <-. reflexivity.
  - destruct (PyFloat.floatnumber body) as [[m e]|]; [|discriminate H].
    injection H as <-. apply Rounding.of_decimal_sign_clear.
Qed.

Example clean_dollars :
  float_of_cell (replace_regex (Str "$110,000")) = Ok (Float64.of_Z 110000).
Proof. reflexivity. Qed.

Example clean_rejects_words :
  float_of_cell (replace_regex (Str "$12 million"))
  = Raise (ValueError "could not convert string to float").
Proof. reflexivity. Qed.

(** A no-break space (the bytes 194 and 160) around the number is white
    space and is dropped; between the sign and the digits it is not. *)
Example clean_no_break_space :
  float_of_cell
    (replace_regex (Str (String (ascii_of_nat 194) (String (ascii_of_nat 160) "-$5"))))
  = Ok (Float64.of_Z (-5)) /\
  float_of_cell
    (replace_regex (Str (String "-" (String (ascii_of_nat 194) (String (ascii_of_nat 160) "5")))))
  = Raise (ValueError "could not convert string to float").
Proof. split; reflexivity. Qed.

(** The digits of another number system are read by their values: the
    Arabic-Indic one and two (the bytes 217 161 and 217 162) spell
    twelve. *)
Example clean_other_digits :
  float_of_cell
    (replace_regex
       (Str (String (ascii_of_nat 217) (String (ascii_of_nat 161)
               (String (ascii_of_nat 217) (String (ascii_of_nat 162) EmptyString))))))
  = Ok (Float64.of_Z 12).
Proof. reflexivity. Qed.

(** A file separator (the byte 28) is white space of a text, but not of
    a number. *)
Example clean_file_separator :
  float_of_cell (replace_regex (Str (String (ascii_of_nat 28) "1")))
  = Raise (ValueError "could not convert string to float").
Proof. reflexivity. Qed.

(** C2 as stated does not hold: the film of [raw_negative] survives
    the Cleaner with a budget below zero and a domestic gross that is
    NaN. *)
Lemma negative_budget_survives_cleaning :
  exists (df : list Film) (r : Film),
    Cleaner Dates.guess_numeric_format Dates.strptime_numeric
      Dates.parse_numeric_date raw_negative = Ok df /\
    In r df /\
    Float64.ltb (USD_Production_Budget r) Float64.zero = true /\
    nonneg_finite (USD_Production_Budget r) = false /\
    Float64.is_nan (USD_Domestic_Gross r) = true /\
    nonneg_finite (USD_Domestic_Gross r) = false.
Proof.
  eexists. eexists. split; [vm_compute; reflexivity|].
  split; [left; reflexivity|]. repeat split; reflexivity.
Qed.

(** C2, amended.  Each currency field of a row that survives the Cleaner
    is the float that the cell's text denotes once every dollar sign and
    comma is removed (NaN for an empty cell); the Cleaner fails, fatally,
    exactly on a cell whose remaining text is not a float literal.  A text
    that, with the white space around it dropped, has no leading minus
    sign and does not spell [nan] gives a number that is not negative and
    not NaN; the sign and finiteness of the other values are not checked,
    and they go on to the later stages. *)
Theorem cleaned_currency_is_float_of_stripped_text :
  forall (guess : bool -> string -> option string)
         (strptime : string -> string -> option Timestamp)
         (parse : bool -> string -> option Timestamp) (raw : list RawFilm),
    (forall df,
        Cleaner guess strptime parse raw = Ok df ->
        Forall2
          (cleaned (column_reader guess strptime parse false (map raw_Release_Date raw)))
          raw df) /\
    (forall e, Cleaner guess strptime parse raw = Raise e ->
               exists r c,
                 In r raw /\ In c (currency_cells r) /\
                 float_of_cell (replace_regex c) = Raise e) /\
    (forall (s : string) (x : float),
        float_of_cell (replace_regex (Str s)) = Ok x ->
        signed_or_nan (strip_currency s) = false ->
        Float64.leb Float64.zero x = true /\ Float64.is_nan x = false).
Proof.
  intros guess strptime parse raw. split; [|split].
  - apply Cleaner_Ok.
  - apply Cleaner_Raise.
  - intros s x H Hs. simpl in H.
    destruct (PyFloat.float_of_string (strip_currency s)) as [x'|] eqn:Hx;
      [|discriminate H].
    injection H as <-. apply Rounding.sign_clear_nonneg.
    exact (float_of_string_sign_clear _ _ Hx Hs).
Qed.

(** ** Examples of the extremes *)

Example max_budget_row_of_ties :
  option_map (fun r : FilmP => Movie_Title r) (nth_error df_ties 1)
  = Some "Two"%string /\
  max_budget_row df_ties = loc df_ties 1.
Proof. split; reflexivity. Qed.

Example max_gross_row_of_ties : max_gross_row df_ties = loc df_ties 1.
Proof. reflexivity. Qed.

Example min_budget_row_of_ties : min_budget_row df_ties = loc df_ties 0.
Proof. reflexivity. Qed.

(** The table [df_ties] has budgets on file. *)
Lemma extremes_select_first_extreme_row_witness :
  exists i r, max_budget_row df_ties = Ok r /\ nth_error df_ties i = Some r.
Proof.
  destruct (extremes_select_first_extreme_row df_ties) as [H _].
  destruct (H eq_refl) as (i & r & H1 & [H2 _] & _).
  exists i, r. split; assumption.
Defined.

(** A missing budget is passed over, wherever it stands. *)
Example max_budget_row_skips_missing :
  option_map (fun r : FilmP => Movie_Title r)
    (match max_budget_row
             (with_Profit
                [mkFilm "Blank" NaT Float64.nan (Float64.of_Z 1) (Float64.of_Z 7);
                 mkFilm "Small" NaT (Float64.of_Z 10) (Float64.of_Z 1) (Float64.of_Z 9);
                 mkFilm "Large" NaT (Float64.of_Z 30) (Float64.of_Z 1) (Float64.of_Z 9)])
     with Ok r => Some r | Raise _ => None end)
  = Some "Large"%string.
Proof. reflexivity. Qed.

(** ** Examples of the quantile *)

Example quantile_of_four :
  Quantile.quantile (map Float64.of_Z [1; 2; 3; 4]) (Float64.of_decimal false 25 (-2))
  = Float64.of_decimal false 175 (-2).
Proof. reflexivity. Qed.

Example quantile_of_five :
  Quantile.quantile (map Float64.of_Z [5; 2; 3; 4; 1]) (Float64.of_decimal false 25 (-2))
  = Float64.of_Z 2.
Proof. reflexivity. Qed.

(** Two values above the lower neighbour, at the fraction one half: the
    interpolation starts from the upper neighbour. *)
Example quantile_of_three :
  Quantile.quantile
    [Float64.of_decimal false 652 (-1); Float64.of_decimal false 94 (-1);
     Float64.of_decimal false 8933 (-2)]
    (Float64.of_decimal false 25 (-2))
  = Float64.of_decimal false 373 (-1).
Proof. reflexivity. Qed.

(** From an infinite upper neighbour the interpolation has no value. *)
Example quantile_of_infinities :
  Quantile.quantile [Float64.of_Z 1; Float64.pos_inf; Float64.pos_inf]
    (Float64.of_decimal false 25 (-2))
  = Float64.nan.
Proof. reflexivity. Qed.

Example bottom_25_of_ties :
  map (fun r : FilmP => Movie_Title r) (bottom_25 df_ties) = ["One"%string] /\
  q1 df_ties = Float64.of_decimal false 775 (-2).
Proof. split; reflexivity. Qed.

Example bottom_25_keeps_rows_at_q1 :
  q1 df_quartile = Float64.of_Z 2 /\
  map (fun r : FilmP => Movie_Title r) (bottom_25 df_quartile)
  = ["B"%string; "C"%string; "E"%string].
Proof. split; reflexivity. Qed.

(** * Further properties of the script *)

(** ** The Cleaner as a whole *)


Lemma Forall2_map_eq {A B C : Type} (f : A -> C) (g : B -> C) (P : A -> B -> Prop) :
  (forall a b, P a b -> g b = f a) ->
  forall l l', Forall2 P l l' -> map g l' = map f l.
Proof.
  intros Hp l l' H. induction H as [|a b l l' H0 _ IH]; simpl; [reflexivity|].
  rewrite (Hp a b H0), IH. reflexivity.
Qed.

(** X1.  The Cleaner neither drops nor reorders rows: the cleaned table
    has the rows of the table read, with the same titles in the same
    order, and its date column is the column read, coerced cell by cell
    under the reader of the column. *)
Theorem Cleaner_keeps_rows :
  forall (guess : bool -> string -> option string)
         (strptime : string -> string -> option Timestamp)
         (parse : bool -> string -> option Timestamp)
         (raw : list RawFilm) (df : list Film),
    Cleaner guess strptime parse raw = Ok df ->
    List.length df = List.length raw /\
    map Movie_Title df = map raw_Movie_Title raw /\
    map Release_Date df
    = map (coerced (column_reader guess strptime parse false (map raw_Release_Date raw)))
        (map raw_Release_Date raw).
Proof.
  intros guess strptime parse raw df H. apply Cleaner_Ok in H.
  set (read := column_reader guess strptime parse false (map raw_Release_Date raw)) in *.
  split; [|split].
  - symmetry. eapply Forall2_length. exact H.
  - apply (Forall2_map_eq raw_Movie_Title Movie_Title (cleaned read)); [|exact H].
    intros a b Hab. apply Hab.
  - rewrite map_map.
    apply (Forall2_map_eq (fun r => coerced read (raw_Release_Date r))
             Release_Date (cleaned read)); [|exact H].
    intros a b Hab. apply Hab.
Qed.

Lemma Cleaner_keeps_rows_witness :
  exists df,
    Cleaner Dates.guess_numeric_format Dates.strptime_numeric
      Dates.parse_numeric_date raw_undated = Ok df /\
    map Movie_Title df = map raw_Movie_Title raw_undated.
Proof.
  eexists. split; [vm_compute; reflexivity|].
  eapply (Cleaner_keeps_rows Dates.guess_numeric_format Dates.strptime_numeric
            Dates.parse_numeric_date raw_undated).
  vm_compute. reflexivity.
Defined.


(** ** The currency text *)

Lemma strip_currency_chars :
  forall s : string,
    list_ascii_of_string (strip_currency s)
    = filter (fun c => negb (Ascii.eqb c "$" || Ascii.eqb c ","))
        (list_ascii_of_string s).
Proof.
  induction s as [|c s IH]; simpl; [reflexivity|].
  destruct (Ascii.eqb c "$" || Ascii.eqb c ","); simpl; rewrite IH; reflexivity.
Qed.

Lemma strip_currency_fixed :
  forall s : string,
    forallb (fun c => negb (Ascii.eqb c "$" || Ascii.eqb c ","))
      (list_ascii_of_string s) = true ->
    strip_currency s = s.
Proof.
  induction s as [|c s IH]; simpl; [reflexivity|].
  intros H. apply andb_true_iff in H. destruct H as [Hc Hs].
  destruct (Ascii.eqb c "$" || Ascii.eqb c ","); [discriminate Hc|].
  rewrite (IH Hs). reflexivity.
Qed.

(** X3.  After the replacement no dollar sign and no comma is left in a
    cell, every other character is kept in its order, and replacing a
    second time changes nothing. *)
Theorem replace_regex_removes_separators :
  forall c : cell,
    replace_regex (replace_regex c) = replace_regex c /\
    (forall s, replace_regex c = Str s ->
               forall a, In a (list_ascii_of_string s) ->
                         a <> "$"%char /\ a <> ","%char) /\
    (forall s, c = Str s ->
               forall a, a <> "$"%char -> a <> ","%char ->
                         count_occ ascii_dec (list_ascii_of_string (strip_currency s)) a
                         = count_occ ascii_dec (list_ascii_of_string s) a).
Proof.
  intros c.
  assert (Hin : forall s a, In a (list_ascii_of_string (strip_currency s)) ->
                            a <> "$"%char /\ a <> ","%char).
  { intros s a Ha. rewrite strip_currency_chars in Ha.
    apply filter_In in Ha. destruct Ha as [_ Ha].
    apply negb_true_iff, orb_false_iff in Ha. destruct Ha as [H1 H2].
    split; intros ->; [rewrite Ascii.eqb_refl in H1|rewrite Ascii.eqb_refl in H2];
      discriminate. }
  split; [|split].
  - destruct c as [s|]; simpl; [|reflexivity]. f_equal.
    apply strip_currency_fixed. apply forallb_forall. intros a Ha.
    destruct (Hin s a Ha) as [H1 H2].
    apply negb_true_iff, orb_false_iff.
    split; apply Ascii.eqb_neq; assumption.
  - intros s Hs a Ha. destruct c as [s0|]; simpl in Hs; [|discriminate Hs].
    injection Hs as <-. exact (Hin s0 a Ha).
  - intros s _ a H1 H2. rewrite strip_currency_chars.
    induction (list_ascii_of_string s) as [|b l IH]; simpl; [reflexivity|].
    destruct (Ascii.eqb b "$" || Ascii.eqb b ",") eqn:Hb; simpl.
    + apply orb_true_iff in Hb.
      destruct (ascii_dec b a) as [->|Hne]; [|exact IH].
      destruct Hb as [Hb|Hb]; apply Ascii.eqb_eq in Hb; congruence.
    + destruct (ascii_dec b a); rewrite IH; reflexivity.
Qed.

(** ** Whole-dollar amounts *)

Module Amounts.

Lemma digit_facts :
  forall c : ascii,
    is_digit c = true ->
    PyFloat.is_space c = false /\
    Ascii.eqb c "-" = false /\ Ascii.eqb c "+" = false /\
    Ascii.eqb c "$" = false /\ Ascii.eqb c "," = false /\
    Ascii.eqb (PyFloat.lower c) "i" = false /\
    Ascii.eqb (PyFloat.lower c) "n" = false.
Proof.
  intros [[] [] [] [] [] [] [] []]; vm_compute; intros H;
    try discriminate H; repeat split.
Qed.

Lemma digit_below_128 :
  forall c : ascii, is_digit c = true -> (N_of_ascii c <? 128)%N = true.
Proof.
  intros [[] [] [] [] [] [] [] []]; vm_compute; intros H;
    try discriminate H; reflexivity.
Qed.

Lemma decode_ascii :
  forall l : list ascii,
    forallb (fun c => (N_of_ascii c <? 128)%N) l = true ->
    Unicode.decode (map N_of_ascii l) = Some (map N_of_ascii l).
Proof.
  induction l as [|c l IH]; intros H; [reflexivity|].
  cbn [forallb] in H. apply andb_true_iff in H. destruct H as [Hc Hl].
  cbn [map Unicode.decode]. rewrite Hc, (IH Hl). reflexivity.
Qed.

Lemma to_ascii_ascii :
  forall l : list ascii,
    forallb (fun c => (N_of_ascii c <? 128)%N) l = true ->
    PyFloat.to_ascii (map N_of_ascii l) = l.
Proof.
  intros l H. unfold PyFloat.to_ascii.
  assert (Ha : forallb (fun c => (c <? 128)%N) (map N_of_ascii l) = true).
  { clear - H. induction l as [|c l IH]; [reflexivity|].
    cbn [forallb map] in *. apply andb_true_iff in H. destruct H as [Hc Hl].
    rewrite Hc, (IH Hl). reflexivity. }
  rewrite Ha, map_map. clear.
  induction l as [|c l IH]; [reflexivity|].
  cbn [map]. rewrite ascii_N_embedding, IH. reflexivity.
Qed.

Lemma digits_below_128 :
  forall ds : list ascii,
    forallb is_digit ds = true ->
    forallb (fun c => (N_of_ascii c <? 128)%N) ds = true.
Proof.
  induction ds as [|c ds IH]; intros H; [reflexivity|].
  cbn [forallb] in *. apply andb_true_iff in H. destruct H as [Hc Hd].
  rewrite (digit_below_128 c Hc), (IH Hd). reflexivity.
Qed.

Lemma digit_nonneg :
  forall c d, PyFloat.digit_of c = Some d -> 0 <= d.
Proof.
  intros c d. unfold PyFloat.digit_of.
  destruct (_ && _) eqn:E; [|discriminate].
  intros H. injection H as <-. apply andb_true_iff in E. lia.
Qed.

Lemma step_nonneg :
  forall l acc, 0 <= acc -> 0 <= fold_left digit_step l acc.
Proof.
  induction l as [|c l IH]; intros acc H; simpl; [assumption|].
  apply IH. unfold digit_step. destruct (PyFloat.digit_of c) as [d|] eqn:E; [|assumption].
  pose proof (digit_nonneg c d E). lia.
Qed.

Lemma digitpart_digit :
  forall c d s after acc n,
    PyFloat.digit_of c = Some d ->
    PyFloat.digitpart (c :: s) after acc n
    = PyFloat.digitpart s true (10 * acc + d) (n + 1).
Proof.
  intros c d s after acc n E. simpl. rewrite E. reflexivity.
Qed.

Lemma digitpart_digits :
  forall ds after acc n,
    forallb is_digit ds = true ->
    ds <> [] ->
    PyFloat.digitpart ds after acc n
    = Some (fold_left digit_step ds acc, n + Z.of_nat (List.length ds), []).
Proof.
  induction ds as [|c ds IH]; intros after acc n Hd Hne; [congruence|].
  simpl in Hd. apply andb_true_iff in Hd. destruct Hd as [Hc Hd].
  unfold is_digit in Hc.
  destruct (PyFloat.digit_of c) as [d|] eqn:E; [|discriminate Hc].
  rewrite (digitpart_digit c d ds after acc n E).
  change (fold_left digit_step (c :: ds) acc) with (fold_left digit_step ds (digit_step acc c)).
  unfold digit_step at 2. rewrite E.
  destruct ds as [|c' ds'].
  - simpl. reflexivity.
  - rewrite (IH true (10 * acc + d) (n + 1) Hd) by discriminate.
    replace (n + 1 + Z.of_nat (List.length (c' :: ds')))
      with (n + Z.of_nat (List.length (c :: c' :: ds')))
      by (simpl List.length; lia).
    reflexivity.
Qed.

Lemma lstrip_digits :
  forall ds, forallb is_digit ds = true -> PyFloat.lstrip ds = ds.
Proof.
  intros [|c ds] H; [reflexivity|]. simpl in *.
  apply andb_true_iff in H. destruct H as [Hc _].
  destruct (digit_facts c Hc) as [-> _]. reflexivity.
Qed.

Lemma strip_digits :
  forall ds, forallb is_digit ds = true -> PyFloat.strip ds = ds.
Proof.
  intros ds H. unfold PyFloat.strip. rewrite (lstrip_digits ds H).
  rewrite lstrip_digits; [apply rev_involutive|].
  apply forallb_forall. intros c Hc. apply in_rev in Hc.
  rewrite forallb_forall in H. auto.
Qed.

Lemma of_decimal_whole :
  forall v, 0 <= v -> Float64.of_decimal false v 0 = Float64.of_Z v.
Proof.
  intros [|p|p] H; [reflexivity| |lia].
  unfold Float64.of_decimal, Float64.of_Z, cond_Zopp.
  rewrite Z.pow_0_r, Z.mul_1_r. reflexivity.
Qed.

Lemma float_of_digits :
  forall ds,
    forallb is_digit ds = true -> ds <> [] ->
    PyFloat.float_of_chars ds = Some (Float64.of_Z (fold_left digit_step ds 0)).
Proof.
  intros ds Hd Hne. unfold PyFloat.float_of_chars.
  rewrite (strip_digits ds Hd).
  destruct ds as [|c ds']; [congruence|].
  assert (Hc : is_digit c = true).
  { simpl in Hd. apply andb_true_iff in Hd. apply Hd. }
  destruct (digit_facts c Hc) as (_ & Hm & Hp & _ & _ & Hi & Hn).
  unfold PyFloat.sign. rewrite Hm, Hp.
  unfold PyFloat.chars_eqb. simpl map. simpl string_of_list_ascii.
  simpl String.eqb. rewrite Hi, Hn. simpl orb.
  unfold PyFloat.floatnumber.
  rewrite (digitpart_digits (c :: ds') false 0 0 Hd Hne).
  replace (0 <? 0 + Z.of_nat (List.length (c :: ds'))) with true
    by (symmetry; apply Z.ltb_lt; simpl List.length; lia).
  rewrite of_decimal_whole by (apply step_nonneg; lia). reflexivity.
Qed.

Lemma fold_step_filter :
  forall l acc,
    forallb amount_char l = true ->
    fold_left digit_step (filter (fun c => negb (Ascii.eqb c "$" || Ascii.eqb c ",")) l) acc
    = fold_left digit_step l acc.
Proof.
  induction l as [|c l IH]; intros acc H; simpl; [reflexivity|].
  simpl in H. apply andb_true_iff in H. destruct H as [Hc Hl].
  unfold amount_char in Hc.
  destruct (PyFloat.digit_of c) as [d|] eqn:E.
  - assert (Hd : is_digit c = true) by (unfold is_digit; rewrite E; reflexivity).
    destruct (digit_facts c Hd) as (_ & _ & _ & -> & -> & _). simpl.
    unfold digit_step at 2 4. rewrite E. apply IH, Hl.
  - rewrite Hc. simpl. unfold digit_step at 3. rewrite E. apply IH, Hl.
Qed.

Lemma filter_digits :
  forall l,
    forallb amount_char l = true ->
    forallb is_digit (filter (fun c => negb (Ascii.eqb c "$" || Ascii.eqb c ",")) l)
    = true /\
    (existsb is_digit l = true ->
     filter (fun c => negb (Ascii.eqb c "$" || Ascii.eqb c ",")) l <> []).
Proof.
  induction l as [|c l IH]; intros H; simpl; [split; [reflexivity|discriminate]|].
  simpl in H. apply andb_true_iff in H. destruct H as [Hc Hl].
  destruct (IH Hl) as [IH1 IH2]. unfold amount_char in Hc.
  destruct (PyFloat.digit_of c) as [d|] eqn:E.
  - assert (Hd : is_digit c = true) by (unfold is_digit; rewrite E; reflexivity).
    destruct (digit_facts c Hd) as (_ & _ & _ & -> & -> & _). simpl.
    rewrite Hd, IH1. split; [reflexivity|discriminate].
  - rewrite Hc. simpl. split; [exact IH1|].
    unfold is_digit at 1. rewrite E. simpl. exact IH2.
Qed.

End Amounts.

(** X4.  A cell written as a whole-dollar amount (digits, with dollar
    signs and commas anywhere among them) cleans to the float of the
    integer its digits spell. *)
Theorem clean_amount_is_its_integer :
  forall s : string,
    amount_text s = true ->
    float_of_cell (replace_regex (Str s)) = Ok (Float64.of_Z (digits_value s)).
Proof.
  intros s H. unfold amount_text in H. apply andb_true_iff in H.
  destruct H as [Ha He].
  destruct (Amounts.filter_digits _ Ha) as [Hd Hne].
  simpl. unfold PyFloat.float_of_string, Unicode.code_points.
  rewrite strip_currency_chars.
  rewrite (Amounts.decode_ascii _ (Amounts.digits_below_128 _ Hd)).
  rewrite (Amounts.to_ascii_ascii _ (Amounts.digits_below_128 _ Hd)).
  rewrite (Amounts.float_of_digits _ Hd (Hne He)).
  rewrite (Amounts.fold_step_filter _ 0 Ha). reflexivity.
Qed.

Lemma clean_amount_is_its_integer_witness :
  float_of_cell (replace_regex (Str "$11,000,000")) = Ok (Float64.of_Z 11000000).
Proof.
  apply (clean_amount_is_its_integer "$11,000,000"). reflexivity.
Defined.

(** ** The cutoff and the films that lost money *)

Module DateOrder.

Lemma date_compare_antisym :
  forall a b : Timestamp, Dates.compare b a = CompOpp (Dates.compare a b).
Proof.
  intros a b. unfold Dates.compare.
  rewrite (Z.compare_antisym (year a) (year b)).
  rewrite (Z.compare_antisym (month a) (month b)).
  rewrite (Z.compare_antisym (day a) (day b)).
  rewrite (Z.compare_antisym (nanos a) (nanos b)).
  destruct (year a ?= year b), (month a ?= month b), (day a ?= day b),
    (nanos a ?= nanos b); reflexivity.
Qed.

Lemma ltb_negb_leb :
  forall a b : Timestamp, Dates.ts_ltb b a = negb (Dates.ts_leb a b).
Proof.
  intros a b. unfold Dates.ts_ltb, Dates.ts_leb. rewrite (date_compare_antisym a b).
  destruct (Dates.compare a b); reflexivity.
Qed.

Lemma leb_before :
  forall a b : Timestamp, Dates.ts_leb a b = true <-> before a b.
Proof.
  intros a b. unfold Dates.ts_leb, Dates.compare, before.
  destruct (Z.compare_spec (year a) (year b));
    destruct (Z.compare_spec (month a) (month b));
    destruct (Z.compare_spec (day a) (day b));
    destruct (Z.compare_spec (nanos a) (nanos b));
    split; intros Hx; try reflexivity; try discriminate Hx; lia.
Qed.

Lemma date_leb_trans :
  forall a b c : Timestamp,
    Dates.ts_leb a b = true -> Dates.ts_leb b c = true -> Dates.ts_leb a c = true.
Proof.
  intros a b c H1 H2. apply leb_before. apply leb_before in H1, H2.
  unfold before in *. lia.
Qed.

Lemma date_leb_refl : forall a : Timestamp, Dates.ts_leb a a = true.
Proof. intros a. apply leb_before. unfold before. lia. Qed.

End DateOrder.

Lemma sum_bool_zip (f : float -> float -> bool) (g h : FilmP -> float) :
  forall l : list FilmP,
    sum_bool (zip_with f (map g l) (map h l))
    = len (filter (fun r => f (g r) (h r)) l).
Proof.
  unfold len. induction l as [|r l IH]; [reflexivity|].
  cbn [map zip_with sum_bool filter]. rewrite IH.
  destruct (f (g r) (h r)); simpl List.length; lia.
Qed.

Lemma len_filter_le {A : Type} (p : A -> bool) :
  forall l : list A, 0 <= len (filter p l) <= len l.
Proof.
  intros l. unfold len. pose proof (filter_length_le p l). lia.
Qed.

(** X5.  The cutoff splits the dated rows in two: a row with a parsed
    release date is among the released rows or among the unreleased ones
    and never in both, and the two counts together with the number of
    rows without a date add up to the size of the table. *)
Theorem cutoff_splits_dated_rows :
  forall df : list FilmP,
    len (data_clean df) + len (unreleased df)
    + len (filter (fun r : FilmP =>
                     match Release_Date r with NaT => true | Stamp _ => false end) df)
    = len df /\
    (forall r, In r (data_clean df) -> ~ In r (unreleased df)) /\
    (forall r t, In r df -> Release_Date r = Stamp t ->
                 In r (data_clean df) \/ In r (unreleased df)).
Proof.
  intros df. rewrite data_clean_filter, unreleased_filter.
  assert (Hsplit : forall t,
             Dates.gtb (Stamp t) cutoff = negb (Dates.leb (Stamp t) cutoff)).
  { intros t. unfold cutoff. simpl. apply DateOrder.ltb_negb_leb. }
  split; [|split].
  - unfold len. induction df as [|r df IH]; [reflexivity|].
    cbn [filter]. destruct (Release_Date r) as [|t] eqn:E.
    + simpl Dates.leb. simpl Dates.gtb. cbn [List.length]. lia.
    + rewrite Hsplit. destruct (Dates.leb (Stamp t) cutoff);
        cbn [negb List.length]; lia.
  - intros r H1 H2. apply filter_In in H1, H2.
    destruct H1 as [_ H1], H2 as [_ H2].
    destruct (Release_Date r) as [|t]; [discriminate H1|].
    rewrite Hsplit, H1 in H2. discriminate H2.
  - intros r t Hin E.
    destruct (Dates.leb (Stamp t) cutoff) eqn:L.
    + left. apply filter_In. rewrite E. auto.
    + right. apply filter_In. rewrite E, Hsplit, L. auto.
Qed.

Lemma losses_filter :
  forall df : list FilmP,
    losses df
    = len (filter (fun r : FilmP =>
                     Float64.gtb (USD_Production_Budget r) (USD_Worldwide_Gross r))
                  (data_clean df)).
Proof.
  intros df. unfold losses.
  apply (sum_bool_zip Float64.gtb
           (fun r : FilmP => USD_Production_Budget r)
           (fun r : FilmP => USD_Worldwide_Gross r)).
Qed.

(** X6.  The count of films that lost money is the number of released
    rows whose budget is above their gross, between zero and the number
    of released rows.  When no row has a release date on or before the
    cutoff the percentage of line 128 is zero divided by zero: NaN. *)
Theorem pct_lost_of_no_released_row :
  forall df : list FilmP,
    Forall (fun r : FilmP => Dates.leb (Release_Date r) cutoff = false) df ->
    data_clean df = [] /\ losses df = 0 /\ pct_lost df = Float64.nan.
Proof.
  intros df H.
  assert (Hd : data_clean df = []).
  { rewrite data_clean_filter.
    induction H as [|r l Hr _ IH]; simpl; [reflexivity|]. rewrite Hr. exact IH. }
  unfold pct_lost. rewrite losses_filter, Hd. repeat split; reflexivity.
Qed.

Lemma pct_lost_of_no_released_row_witness :
  pct_lost df_no_gross = Float64.nan.
Proof.
  apply (pct_lost_of_no_released_row df_no_gross). repeat constructor.
Defined.

(** The count of films that lost money never leaves the range from zero
    to the number of released rows. *)
Lemma losses_within_released :
  forall df : list FilmP,
    0 <= losses df <= len (data_clean df) /\
    losses df
    = len (filter (fun r : FilmP =>
                     Float64.gtb (USD_Production_Budget r) (USD_Worldwide_Gross r))
                  (data_clean df)) /\
    losses df
    + len (filter (fun r : FilmP =>
                     negb (Float64.gtb (USD_Production_Budget r)
                             (USD_Worldwide_Gross r)))
                  (data_clean df))
    = len (data_clean df).
Proof.
  intros df. rewrite losses_filter. split; [apply len_filter_le|].
  split; [reflexivity|]. unfold len.
  pose proof (filter_length_split
                (fun r : FilmP =>
                   Float64.gtb (USD_Production_Budget r) (USD_Worldwide_Gross r))
                (data_clean df)).
  lia.
Qed.

(** ** Films without revenue *)

Lemma getitem_mask_zip_filter (p q : float -> bool) (f g : FilmP -> float) :
  forall df : list FilmP,
    getitem_mask df (zip_with andb (map p (map f df)) (map q (map g df)))
    = filter (fun r => p (f r) && q (g r)) df.
Proof.
  induction df as [|r df IH]; [reflexivity|].
  cbn [map zip_with getitem_mask filter]. rewrite IH. reflexivity.
Qed.

Lemma zero_domestic_filter :
  forall df : list FilmP,
    zero_domestic df
    = filter (fun r : FilmP => Float64.eqb (USD_Domestic_Gross r) (Float64.of_Z 0)) df.
Proof.
  intros df. unfold zero_domestic.
  apply (getitem_mask_filter (fun x => Float64.eqb x (Float64.of_Z 0))).
Qed.

Lemma zero_worldwide_filter :
  forall df : list FilmP,
    zero_worldwide df
    = filter (fun r : FilmP => Float64.eqb (USD_Worldwide_Gross r) (Float64.of_Z 0)) df.
Proof.
  intros df. unfold zero_worldwide.
  apply (getitem_mask_filter (fun x => Float64.eqb x (Float64.of_Z 0))).
Qed.

Lemma intl_only_filter :
  forall df : list FilmP,
    intl_only df
    = filter (fun r : FilmP =>
                Float64.gtb (USD_Worldwide_Gross r) (Float64.of_Z 0)
                && Float64.eqb (USD_Domestic_Gross r) (Float64.of_Z 0)) df.
Proof.
  intros df. unfold intl_only.
  apply (getitem_mask_zip_filter
           (fun x => Float64.gtb x (Float64.of_Z 0))
           (fun x => Float64.eqb x (Float64.of_Z 0))).
Qed.

Lemma gtb_not_eqb :
  forall x y : float, Float64.gtb x y = true -> Float64.eqb x y = false.
Proof.
  intros x y. unfold Float64.gtb, Float64.eqb, SFltb, SFeqb.
  rewrite (FloatOrder.compare_antisym x y).
  destruct (SFcompare x y) as [[| |]|]; simpl; congruence.
Qed.

Lemma filter_filter {A : Type} (p q : A -> bool) :
  forall l : list A, filter p (filter q l) = filter (fun a => p a && q a) l.
Proof.
  induction l as [|a l IH]; simpl; [reflexivity|].
  destruct (q a); simpl; rewrite IH; [|rewrite andb_false_r]; try reflexivity.
  rewrite andb_true_r. reflexivity.
Qed.

(** X7.  The international-only releases are the films without domestic
    gross whose worldwide gross is above zero: each of them is in the
    zero-domestic listing's source, none is among the films without
    worldwide gross, and a film with no domestic gross and a worldwide
    gross that is a number not below zero is in one of the two.  The
    listing printed shows the first five of them in table order. *)
Theorem intl_only_within_zero_domestic :
  forall df : list FilmP,
    intl_only df
    = filter (fun r : FilmP => Float64.gtb (USD_Worldwide_Gross r) (Float64.of_Z 0))
        (zero_domestic df) /\
    (forall r, In r (intl_only df) ->
               In r (zero_domestic df) /\ ~ In r (zero_worldwide df)) /\
    (forall r, In r (zero_domestic df) ->
               Float64.leb (Float64.of_Z 0) (USD_Worldwide_Gross r) = true ->
               In r (intl_only df) \/ In r (zero_worldwide df)) /\
    intl_only_listing df
    = firstn 5 (map (fun r : FilmP =>
                       (Movie_Title r, USD_Production_Budget r, USD_Worldwide_Gross r))
                    (intl_only df)) /\
    (List.length (intl_only_listing df) <= 5)%nat.
Proof.
  intros df. rewrite intl_only_filter, zero_domestic_filter, zero_worldwide_filter.
  split; [|split; [|split; [|split]]].
  - symmetry. apply filter_filter.
  - intros r H. apply filter_In in H. destruct H as [Hin H].
    apply andb_true_iff in H. destruct H as [Hw Hd]. split.
    + apply filter_In. auto.
    + intros H. apply filter_In in H. destruct H as [_ H].
      rewrite (gtb_not_eqb _ _ Hw) in H. discriminate H.
  - intros r H Hw. apply filter_In in H. destruct H as [Hin Hd].
    destruct (Float64.gtb (USD_Worldwide_Gross r) (Float64.of_Z 0)) eqn:G.
    + left. apply filter_In. rewrite G, Hd. auto.
    + right. apply filter_In. split; [assumption|].
      assert (Hn : Float64.is_nan (USD_Worldwide_Gross r) = false).
      { destruct (USD_Worldwide_Gross r); try reflexivity. discriminate Hw. }
      rewrite (FloatOrder.gtb_negb_leb _ (Float64.of_Z 0) Hn eq_refl) in G.
      apply negb_false_iff in G.
      revert Hw G. unfold Float64.leb, Float64.eqb, SFleb, SFeqb.
      rewrite (FloatOrder.compare_antisym (USD_Worldwide_Gross r) (Float64.of_Z 0)).
      destruct (SFcompare (USD_Worldwide_Gross r) (Float64.of_Z 0)) as [[| |]|];
        simpl; congruence.
  - unfold intl_only_listing, head. rewrite intl_only_filter. symmetry. apply firstn_map.
  - unfold intl_only_listing, head. rewrite length_map. apply firstn_le_length.
Qed.

(** X8.  When no film has a Worldwide Gross on file (the table is empty,
    or every gross is missing) the first quartile is NaN, no row is at or
    below it, and the percentage profitable is NaN. *)
Theorem no_gross_no_bottom_quartile :
  forall df : list FilmP,
    Forall (fun r : FilmP => Float64.is_nan (USD_Worldwide_Gross r) = true) df ->
    q1 df = Float64.nan /\ bottom_25 df = [] /\ pct_profitable df = Float64.nan.
Proof.
  intros df H. split; [|split].
  - unfold q1, Quantile.quantile.
    replace (Quantile.dropna (map (fun r : FilmP => USD_Worldwide_Gross r) df))
      with (@nil float); [reflexivity|].
    induction H as [|r l Hr _ IH]; [reflexivity|].
    cbn [map Quantile.dropna filter] in *. rewrite Hr. exact IH.
  - apply bottom_25_empty_of_no_gross. exact H.
  - unfold pct_profitable, profitable_cnt.
    rewrite (bottom_25_empty_of_no_gross df H). reflexivity.
Qed.

Lemma no_gross_no_bottom_quartile_witness :
  q1 df_no_gross = Float64.nan /\ bottom_25 df_no_gross = [] /\
  pct_profitable df_no_gross = Float64.nan.
Proof.
  apply (no_gross_no_bottom_quartile df_no_gross). repeat constructor.
Defined.

(** ** When the extremes report fails *)

Lemma all_nan_column (field : FilmP -> float) :
  forall df : list FilmP,
    forallb Float64.is_nan (map field df) = true <->
    Forall (fun r => Float64.is_nan (field r) = true) df.
Proof.
  intros df. rewrite forallb_forall, Forall_forall. split.
  - intros H r Hr. apply H. apply in_map. exact Hr.
  - intros H x Hx. apply in_map_iff in Hx. destruct Hx as (r & <- & Hr). auto.
Qed.

Lemma maximum_row_or_error (field : FilmP -> float) :
  forall df : list FilmP,
    (df = [] ->
     (i <- Extremes.idxmax (map field df) ;; loc df i)
     = Raise (ValueError "attempt to get argmax of an empty sequence")) /\
    (df <> [] ->
     Forall (fun r => Float64.is_nan (field r) = true) df ->
     (i <- Extremes.idxmax (map field df) ;; loc df i)
     = Raise (ValueError "Encountered all NA values")) /\
    (Exists (fun r => Float64.is_nan (field r) = false) df ->
     exists r, (i <- Extremes.idxmax (map field df) ;; loc df i) = Ok r /\ In r df).
Proof.
  intros df. split; [|split].
  - intros ->. reflexivity.
  - intros Hne H. apply all_nan_column in H.
    destruct df as [|r df]; [congruence|].
    unfold Extremes.idxmax. cbn [map]. cbn [map] in H. rewrite H. reflexivity.
  - intros H.
    assert (E : forallb Float64.is_nan (map field df) = false).
    { destruct (forallb Float64.is_nan (map field df)) eqn:E; [|reflexivity].
      apply all_nan_column in E. rewrite Forall_forall in E.
      apply Exists_exists in H. destruct H as (r & Hr & Hn).
      rewrite (E r Hr) in Hn. discriminate Hn. }
    destruct (first_maximum_row field df E) as (i & r & Hr & Hi & _).
    exists r. split; [exact Hr|]. eapply nth_error_In. exact Hi.
Qed.

Lemma minimum_row_or_error (field : FilmP -> float) :
  forall df : list FilmP,
    (df = [] ->
     (i <- Extremes.idxmin (map field df) ;; loc df i)
     = Raise (ValueError "attempt to get argmin of an empty sequence")) /\
    (df <> [] ->
     Forall (fun r => Float64.is_nan (field r) = true) df ->
     (i <- Extremes.idxmin (map field df) ;; loc df i)
     = Raise (ValueError "Encountered all NA values")) /\
    (Exists (fun r => Float64.is_nan (field r) = false) df ->
     exists r, (i <- Extremes.idxmin (map field df) ;; loc df i) = Ok r /\ In r df).
Proof.
  intros df. split; [|split].
  - intros ->. reflexivity.
  - intros Hne H. apply all_nan_column in H.
    destruct df as [|r df]; [congruence|].
    unfold Extremes.idxmin. cbn [map]. cbn [map] in H. rewrite H. reflexivity.
  - intros H.
    assert (E : forallb Float64.is_nan (map field df) = false).
    { destruct (forallb Float64.is_nan (map field df)) eqn:E; [|reflexivity].
      apply all_nan_column in E. rewrite Forall_forall in E.
      apply Exists_exists in H. destruct H as (r & Hr & Hn).
      rewrite (E r Hr) in Hn. discriminate Hn. }
    destruct (first_minimum_row field df E) as (i & r & Hr & Hi & _).
    exists r. split; [exact Hr|]. eapply nth_error_In. exact Hi.
Qed.

(** X9.  Each of the three extremes is a row of the table as soon as one
    value of its column is on file, and fails otherwise: on an empty
    table with the [ValueError] of an empty sequence, on a table whose
    column is all missing with the [ValueError] of all-NA values.  The
    lookup by label that follows never fails. *)
Theorem extremes_fail_only_without_values :
  forall df : list FilmP,
    ((df = [] ->
      max_budget_row df
      = Raise (ValueError "attempt to get argmax of an empty sequence")) /\
     (df <> [] ->
      Forall (fun r : FilmP => Float64.is_nan (USD_Production_Budget r) = true) df ->
      max_budget_row df = Raise (ValueError "Encountered all NA values")) /\
     (Exists (fun r : FilmP => Float64.is_nan (USD_Production_Budget r) = false) df ->
      exists r, max_budget_row df = Ok r /\ In r df)) /\
    ((df = [] ->
      max_gross_row df
      = Raise (ValueError "attempt to get argmax of an empty sequence")) /\
     (df <> [] ->
      Forall (fun r : FilmP => Float64.is_nan (USD_Worldwide_Gross r) = true) df ->
      max_gross_row df = Raise (ValueError "Encountered all NA values")) /\
     (Exists (fun r : FilmP => Float64.is_nan (USD_Worldwide_Gross r) = false) df ->
      exists r, max_gross_row df = Ok r /\ In r df)) /\
    ((df = [] ->
      min_budget_row df
      = Raise (ValueError "attempt to get argmin of an empty sequence")) /\
     (df <> [] ->
      Forall (fun r : FilmP => Float64.is_nan (USD_Production_Budget r) = true) df ->
      min_budget_row df = Raise (ValueError "Encountered all NA values")) /\
     (Exists (fun r : FilmP => Float64.is_nan (USD_Production_Budget r) = false) df ->
      exists r, min_budget_row df = Ok r /\ In r df)).
Proof.
  intros df. split; [|split].
  - exact (maximum_row_or_error (fun r : FilmP => USD_Production_Budget r) df).
  - exact (maximum_row_or_error (fun r : FilmP => USD_Worldwide_Gross r) df).
  - exact (minimum_row_or_error (fun r : FilmP => USD_Production_Budget r) df).
Qed.

(** ** The minima of the overview *)

Lemma min_from_least :
  forall (l : list float) (b : float),
    no_nan (b :: l) ->
    In (Summary.min_from l b) (b :: l) /\
    forall x, In x (b :: l) -> Float64.leb (Summary.min_from l b) x = true.
Proof.
  induction l as [|x l IH]; intros b Hn.
  - simpl. split; [auto|]. intros y [<-|[]]. apply FloatOrder.leb_refl.
    inversion Hn; assumption.
  - inversion Hn as [|? ? Hb Hxl]; subst. inversion Hxl as [|? ? Hx Hl]; subst.
    simpl Summary.min_from. destruct (Float64.ltb b x) eqn:L.
    + destruct (IH b (Forall_cons b Hb Hl)) as [Hin Hle]. split.
      * destruct Hin as [Hin|Hin]; [left; exact Hin|right; right; exact Hin].
      * intros y [<-|[<-|Hy]].
        -- apply Hle. left. reflexivity.
        -- apply (FloatOrder.leb_trans _ b _); [apply Hle; left; reflexivity|].
           apply FloatOrder.ltb_leb. exact L.
        -- apply Hle. right. exact Hy.
    + assert (Hxb : Float64.leb x b = true).
      { pose proof (FloatOrder.gtb_negb_leb x b Hx Hb) as G.
        unfold Float64.gtb in G. unfold Float64.ltb in L. rewrite L in G.
        destruct (Float64.leb x b); [reflexivity|discriminate G]. }
      destruct (IH x Hxl) as [Hin Hle]. split; [right; exact Hin|].
      intros y [<-|Hy]; [|apply Hle; exact Hy].
      apply (FloatOrder.leb_trans _ x _); [apply Hle; left; reflexivity|exact Hxb].
Qed.

Lemma series_min_least :
  forall col : list float,
    forallb Float64.is_nan col = false ->
    Float64.is_nan (Summary.series_min col) = false /\
    (forall x, In x col -> Float64.is_nan x = false ->
               Float64.leb (Summary.series_min col) x = true) /\
    exists x, In x col /\ Float64.is_nan x = false /\
              Float64.eqb (Summary.series_min col) x = true.
Proof.
  intros col H. unfold Summary.series_min. rewrite H.
  pose proof (filled_no_nan Float64.pos_inf col eq_refl) as Hn.
  destruct (map (Extremes.fillna Float64.pos_inf) col) as [|b l] eqn:E.
  { destruct col; [discriminate H|discriminate E]. }
  destruct (min_from_least l b Hn) as [Hin Hle].
  set (m := Summary.min_from l b) in *.
  assert (Hm : Float64.is_nan m = false).
  { unfold no_nan in Hn. rewrite Forall_forall in Hn. apply Hn. exact Hin. }
  assert (Hcol : forall x, In x col -> Float64.is_nan x = false ->
                           Float64.leb m x = true).
  { intros x Hx Hxn. apply Hle. rewrite <- E. apply in_map_iff.
    exists x. split; [|exact Hx]. unfold Extremes.fillna. rewrite Hxn. reflexivity. }
  split; [exact Hm|]. split; [exact Hcol|].
  rewrite <- E in Hin. apply in_map_iff in Hin. destruct Hin as (c & Hc & Hcin).
  unfold Extremes.fillna in Hc. destruct (Float64.is_nan c) eqn:Ec.
  - assert (Hex : exists x0, In x0 col /\ Float64.is_nan x0 = false).
    { clear - H. induction col as [|a col IH]; [discriminate H|].
      simpl in H. destruct (Float64.is_nan a) eqn:Ea.
      - destruct (IH H) as (x0 & Hx0 & Hn0). exists x0. split; [right|]; assumption.
      - exists a. split; [left; reflexivity|assumption]. }
    destruct Hex as (x0 & Hx0 & Hn0). exists x0. split; [exact Hx0|].
    split; [exact Hn0|]. pose proof (Hcol x0 Hx0 Hn0) as Hl.
    rewrite <- Hc in *. clear - Hl.
    destruct x0 as [[]|[]| |[] mx ex]; try discriminate Hl; reflexivity.
  - exists c. split; [exact Hcin|]. split; [exact Ec|].
    rewrite <- Hc. apply FloatOrder.eqb_refl. exact Ec.
Qed.

(** X10.  The minimum Worldwide Gross (and likewise the minimum Domestic
    Gross) of the overview is NaN when the column has no value; otherwise
    it is a number, no film with a gross on file has a smaller one, and
    some film has exactly that gross. *)
Theorem overview_minimum_is_least :
  forall df : list Film,
    (forallb Float64.is_nan (map USD_Worldwide_Gross df) = true ->
     min_worldwide_gross df = Float64.nan) /\
    (forallb Float64.is_nan (map USD_Worldwide_Gross df) = false ->
     Float64.is_nan (min_worldwide_gross df) = false /\
     (forall r, In r df -> Float64.is_nan (USD_Worldwide_Gross r) = false ->
                Float64.leb (min_worldwide_gross df) (USD_Worldwide_Gross r) = true) /\
     exists r, In r df /\
               Float64.eqb (min_worldwide_gross df) (USD_Worldwide_Gross r) = true) /\
    (forallb Float64.is_nan (map USD_Domestic_Gross df) = true ->
     min_domestic_gross df = Float64.nan) /\
    (forallb Float64.is_nan (map USD_Domestic_Gross df) = false ->
     Float64.is_nan (min_domestic_gross df) = false /\
     (forall r, In r df -> Float64.is_nan (USD_Domestic_Gross r) = false ->
                Float64.leb (min_domestic_gross df) (USD_Domestic_Gross r) = true) /\
     exists r, In r df /\
               Float64.eqb (min_domestic_gross df) (USD_Domestic_Gross r) = true).
Proof.
  intros df.
  assert (G : forall field : Film -> float,
             (forallb Float64.is_nan (map field df) = true ->
              Summary.series_min (map field df) = Float64.nan) /\
             (forallb Float64.is_nan (map field df) = false ->
              Float64.is_nan (Summary.series_min (map field df)) = false /\
              (forall r, In r df -> Float64.is_nan (field r) = false ->
                         Float64.leb (Summary.series_min (map field df)) (field r)
                         = true) /\
              exists r, In r df /\
                        Float64.eqb (Summary.series_min (map field df)) (field r)
                        = true)).
  { intros field. split.
    - intros H. unfold Summary.series_min. rewrite H. reflexivity.
    - intros H. destruct (series_min_least _ H) as (Hm & Hle & x & Hx & _ & He).
      split; [exact Hm|]. split.
      + intros r Hr Hn. apply Hle; [apply in_map; exact Hr|exact Hn].
      + apply in_map_iff in Hx. destruct Hx as (r & <- & Hr). exists r. auto. }
  destruct (G USD_Worldwide_Gross) as [W1 W2].
  destruct (G USD_Domestic_Gross) as [D1 D2].
  unfold min_worldwide_gross, min_domestic_gross.
  split; [exact W1|]. split; [exact W2|]. split; [exact D1|exact D2].
Qed.

(** Of two zeros that compare equal the later one is the minimum. *)
Example series_min_of_zeros :
  Summary.series_min [S754_zero false; S754_zero true] = S754_zero true /\
  Summary.series_min [S754_zero true; S754_zero false] = S754_zero false.
Proof. split; reflexivity. Qed.

(** ** The release date range *)

Lemma min_date_least :
  forall (col : list datetime) (t0 : Timestamp),
    In (Stamp t0) col ->
    exists a, Dates.min col = Stamp a /\ In (Stamp a) col /\
              forall t, In (Stamp t) col -> Dates.ts_leb a t = true.
Proof.
  induction col as [|d col IH]; intros t0 H0; [destruct H0|].
  destruct d as [|t]; simpl Dates.min.
  - destruct H0 as [H0|H0]; [discriminate H0|].
    destruct (IH t0 H0) as (a & Ha & Hin & Hle). exists a.
    split; [exact Ha|]. split; [right; exact Hin|].
    intros u [Hu|Hu]; [discriminate Hu|auto].
  - destruct (Dates.min col) as [|u] eqn:E.
    + exists t. split; [reflexivity|]. split; [left; reflexivity|].
      intros v [Hv|Hv]; [injection Hv as <-; apply DateOrder.date_leb_refl|].
      destruct (IH v Hv) as (a & Ha & _). discriminate Ha.
    + destruct (IH u) as (a & Ha & Hin & Hle).
      { clear - E. induction col as [|d col IH]; [discriminate E|].
        destruct d as [|t]; simpl in E.
        - right. apply IH. exact E.
        - destruct (Dates.min col) as [|w] eqn:Ew.
          + injection E as <-. left. reflexivity.
          + destruct (Dates.ts_ltb w t); injection E as <-;
              [right; apply IH; reflexivity|left; reflexivity]. }
      injection Ha as <-.
      rewrite (DateOrder.ltb_negb_leb t u).
      destruct (Dates.ts_leb t u) eqn:L; simpl.
      * exists t. split; [reflexivity|]. split; [left; reflexivity|].
        intros v [Hv|Hv]; [injection Hv as <-; apply DateOrder.date_leb_refl|].
        apply (DateOrder.date_leb_trans t u v L). apply Hle. exact Hv.
      * exists u. split; [reflexivity|]. split; [right; exact Hin|].
        intros v [Hv|Hv]; [|apply Hle; exact Hv]. injection Hv as <-.
        pose proof (DateOrder.ltb_negb_leb t u) as G. rewrite L in G. simpl in G.
        unfold Dates.ts_ltb in G. unfold Dates.ts_leb.
        destruct (Dates.compare u t); try reflexivity; discriminate G.
Qed.

Lemma max_date_greatest :
  forall (col : list datetime) (t0 : Timestamp),
    In (Stamp t0) col ->
    exists b, Dates.max col = Stamp b /\ In (Stamp b) col /\
              forall t, In (Stamp t) col -> Dates.ts_leb t b = true.
Proof.
  induction col as [|d col IH]; intros t0 H0; [destruct H0|].
  destruct d as [|t]; simpl Dates.max.
  - destruct H0 as [H0|H0]; [discriminate H0|].
    destruct (IH t0 H0) as (a & Ha & Hin & Hle). exists a.
    split; [exact Ha|]. split; [right; exact Hin|].
    intros u [Hu|Hu]; [discriminate Hu|auto].
  - destruct (Dates.max col) as [|u] eqn:E.
    + exists t. split; [reflexivity|]. split; [left; reflexivity|].
      intros v [Hv|Hv]; [injection Hv as <-; apply DateOrder.date_leb_refl|].
      destruct (IH v Hv) as (a & Ha & _). discriminate Ha.
    + destruct (IH u) as (a & Ha & Hin & Hle).
      { clear - E. induction col as [|d col IH]; [discriminate E|].
        destruct d as [|t]; simpl in E.
        - right. apply IH. exact E.
        - destruct (Dates.max col) as [|w] eqn:Ew.
          + injection E as <-. left. reflexivity.
          + destruct (Dates.ts_ltb t w); injection E as <-;
              [right; apply IH; reflexivity|left; reflexivity]. }
      injection Ha as <-.
      rewrite (DateOrder.ltb_negb_leb u t).
      destruct (Dates.ts_leb u t) eqn:L; simpl.
      * exists t. split; [reflexivity|]. split; [left; reflexivity|].
        intros v [Hv|Hv]; [injection Hv as <-; apply DateOrder.date_leb_refl|].
        apply (DateOrder.date_leb_trans v u t); [apply Hle; exact Hv|exact L].
      * exists u. split; [reflexivity|]. split; [right; exact Hin|].
        intros v [Hv|Hv]; [|apply Hle; exact Hv]. injection Hv as <-.
        pose proof (DateOrder.ltb_negb_leb u t) as G. rewrite L in G. simpl in G.
        unfold Dates.ts_ltb in G. unfold Dates.ts_leb.
        destruct (Dates.compare t u); try reflexivity; discriminate G.
Qed.

(** X11.  When at least one release date was parsed, the overview prints
    the calendar dates of two rows of the table, the first not after the
    second, and every parsed release date lies between them; missing
    dates are passed over. *)
Theorem release_date_range_spans_parsed_dates :
  forall (df : list Film) (r0 : Film) (t0 : Timestamp),
    In r0 df -> Release_Date r0 = Stamp t0 ->
    exists a b : Timestamp,
      release_date_range df
      = Ok (Date (year a) (month a) (day a), Date (year b) (month b) (day b)) /\
      (exists r, In r df /\ Release_Date r = Stamp a) /\
      (exists r, In r df /\ Release_Date r = Stamp b) /\
      Dates.ts_leb a b = true /\
      forall r t, In r df -> Release_Date r = Stamp t ->
                  Dates.ts_leb a t = true /\ Dates.ts_leb t b = true.
Proof.
  intros df r0 t0 Hr0 Hd0.
  assert (H0 : In (Stamp t0) (map Release_Date df)).
  { rewrite <- Hd0. apply in_map. exact Hr0. }
  destruct (min_date_least _ t0 H0) as (a & Ha & Hina & Hlea).
  destruct (max_date_greatest _ t0 H0) as (b & Hb & Hinb & Hleb).
  exists a, b. unfold release_date_range. rewrite Ha, Hb. simpl.
  split; [reflexivity|].
  apply in_map_iff in Hina. destruct Hina as (ra & Hra & Hina).
  apply in_map_iff in Hinb. destruct Hinb as (rb & Hrb & Hinb).
  split; [exists ra; auto|]. split; [exists rb; auto|].
  split.
  - apply Hlea. rewrite <- Hrb. apply in_map. exact Hinb.
  - intros r t Hr Ht.
    assert (Hin : In (Stamp t) (map Release_Date df)).
    { rewrite <- Ht. apply in_map. exact Hr. }
    split; [apply Hlea|apply Hleb]; exact Hin.
Qed.

Lemma release_date_range_spans_parsed_dates_witness :
  exists a b : Timestamp,
    release_date_range
      [mkFilm "The Birth of a Nation" (Stamp (mkTimestamp 1915 8 2 0))
         (Float64.of_Z 110000) (Float64.of_Z 10000000) (Float64.of_Z 11000000);
       mkFilm "Untitled" NaT (Float64.of_Z 1000) (Float64.of_Z 0) (Float64.of_Z 5000)]
    = Ok (Date (year a) (month a) (day a), Date (year b) (month b) (day b)).
Proof.
  destruct (release_date_range_spans_parsed_dates
              [mkFilm "The Birth of a Nation" (Stamp (mkTimestamp 1915 8 2 0))
                 (Float64.of_Z 110000) (Float64.of_Z 10000000)
                 (Float64.of_Z 11000000);
               mkFilm "Untitled" NaT (Float64.of_Z 1000) (Float64.of_Z 0)
                 (Float64.of_Z 5000)]
              (mkFilm "The Birth of a Nation" (Stamp (mkTimestamp 1915 8 2 0))
                 (Float64.of_Z 110000) (Float64.of_Z 10000000)
                 (Float64.of_Z 11000000))
              (mkTimestamp 1915 8 2 0))
    as (a & b & H & _).
  - left. reflexivity.
  - reflexivity.
  - exists a, b. exact H.
Defined.

(** ** The zero-revenue listings *)

Lemma budget_desc_trans :
  forall a b c : FilmP, budget_desc a b -> budget_desc b c -> budget_desc a c.
Proof.
  unfold budget_desc. intros a b c H1 H2.
  exact (FloatOrder.leb_trans _ _ _ H2 H1).
Qed.

Lemma in_firstn {A : Type} :
  forall (n : nat) (l : list A) (a : A), In a (firstn n l) -> In a l.
Proof.
  intros n l a H. rewrite <- (firstn_skipn n l). apply in_or_app. left. exact H.
Qed.

Lemma in_skipn {A : Type} :
  forall (n : nat) (l : list A) (a : A), In a (skipn n l) -> In a l.
Proof.
  intros n l a H. rewrite <- (firstn_skipn n l). apply in_or_app. right. exact H.
Qed.

Lemma sorted_split (n : nat) :
  forall s : list FilmP,
    Sorted budget_desc s ->
    Sorted budget_desc (firstn n s) /\
    forall r r', In r (firstn n s) -> In r' (skipn n s) -> budget_desc r r'.
Proof.
  intros s H.
  assert (HS : StronglySorted budget_desc s).
  { apply Sorted_StronglySorted; [|exact H]. intros a b c. apply budget_desc_trans. }
  clear H. revert n. induction HS as [|a l HS IH Ha]; intros n.
  - rewrite firstn_nil, skipn_nil. split; [constructor|]. intros r r' [].
  - destruct n as [|n]; simpl.
    + split; [constructor|]. intros r r' [].
    + destruct (IH n) as [IH1 IH2]. split.
      * constructor; [exact IH1|].
        destruct l as [|b l']; [rewrite firstn_nil; constructor|].
        destruct n; simpl; constructor.
        rewrite Forall_forall in Ha. apply Ha. left. reflexivity.
      * intros r r' [<-|Hr] Hr'.
        -- rewrite Forall_forall in Ha. apply Ha.
           apply (in_skipn n). exact Hr'.
        -- apply IH2; assumption.
Qed.

Section ListingFacts.

Variable sort_values_desc : list FilmP -> list FilmP.

(** What the library's sort promises: the rows are kept, and rows whose
    budgets are all on file come by falling budget. *)
Hypothesis sort_keeps_rows :
  forall t, Permutation (sort_values_desc t) t.
Hypothesis sort_orders_rows :
  forall t,
    no_nan (map (fun r : FilmP => USD_Production_Budget r) t) ->
    Sorted budget_desc (sort_values_desc t).

Lemma head_of_sorted :
  forall t : list FilmP,
    highest_budgets (head 5 (sort_values_desc t)) (skipn 5 (sort_values_desc t)) t.
Proof.
  intros t. unfold highest_budgets, head. split; [|split].
  - rewrite firstn_skipn. apply sort_keeps_rows.
  - rewrite length_firstn.
    rewrite (Permutation_length (sort_keeps_rows t)). reflexivity.
  - intros Hn. apply sorted_split. apply sort_orders_rows. exact Hn.
Qed.

(** X12.  Each zero-revenue listing shows at most five films, all of them
    rows of the table with a gross of zero in the listing's column; they
    are five when that many exist.  When the budgets of the zero-gross
    films are all on file, the films shown come by falling budget and no
    zero-gross film left out has a budget above one shown. *)
Theorem zero_revenue_listings_show_highest_budgets :
  forall df : list FilmP,
    (top_zero_domestic sort_values_desc df
     = map (fun r : FilmP => (Movie_Title r, USD_Production_Budget r))
           (head 5 (sort_values_desc (zero_domestic df))) /\
     highest_budgets (head 5 (sort_values_desc (zero_domestic df)))
       (skipn 5 (sort_values_desc (zero_domestic df))) (zero_domestic df) /\
     forall r, In r (head 5 (sort_values_desc (zero_domestic df))) ->
               In r df /\
               Float64.eqb (USD_Domestic_Gross r) (Float64.of_Z 0) = true) /\
    (top_zero_worldwide sort_values_desc df
     = map (fun r : FilmP => (Movie_Title r, USD_Production_Budget r))
           (head 5 (sort_values_desc (zero_worldwide df))) /\
     highest_budgets (head 5 (sort_values_desc (zero_worldwide df)))
       (skipn 5 (sort_values_desc (zero_worldwide df))) (zero_worldwide df) /\
     forall r, In r (head 5 (sort_values_desc (zero_worldwide df))) ->
               In r df /\
               Float64.eqb (USD_Worldwide_Gross r) (Float64.of_Z 0) = true).
Proof.
  intros df. split.
  - split; [reflexivity|]. split; [apply head_of_sorted|].
    intros r Hr. unfold head in Hr. apply in_firstn in Hr.
    apply (Permutation_in _ (sort_keeps_rows _)) in Hr.
    rewrite zero_domestic_filter in Hr. apply filter_In in Hr. exact Hr.
  - split; [reflexivity|]. split; [apply head_of_sorted|].
    intros r Hr. unfold head in Hr. apply in_firstn in Hr.
    apply (Permutation_in _ (sort_keeps_rows _)) in Hr.
    rewrite zero_worldwide_filter in Hr. apply filter_In in Hr. exact Hr.
Qed.

End ListingFacts.

Lemma insert_desc_perm :
  forall (r : FilmP) (l : list FilmP), Permutation (insert_desc r l) (r :: l).
Proof.
  intros r l. induction l as [|a l IH]; simpl; [apply Permutation_refl|].
  destruct (Float64.leb (USD_Production_Budget a) (USD_Production_Budget r)).
  - apply Permutation_refl.
  - apply perm_trans with (a :: r :: l); [apply perm_skip; exact IH|apply perm_swap].
Qed.

Lemma insertion_sort_desc_perm :
  forall t : list FilmP, Permutation (insertion_sort_desc t) t.
Proof.
  induction t as [|r t IH]; simpl; [apply perm_nil|].
  apply perm_trans with (r :: insertion_sort_desc t);
    [apply insert_desc_perm|apply perm_skip; exact IH].
Qed.

Lemma insert_desc_sorted :
  forall (r : FilmP) (l : list FilmP),
    Float64.is_nan (USD_Production_Budget r) = false ->
    no_nan (map (fun r : FilmP => USD_Production_Budget r) l) ->
    Sorted budget_desc l -> Sorted budget_desc (insert_desc r l).
Proof.
  intros r l Hr Hn H. induction H as [|a l Hs IH Ha]; simpl.
  - repeat constructor.
  - inversion Hn as [|? ? Han Hln]; subst.
    destruct (Float64.leb (USD_Production_Budget a) (USD_Production_Budget r)) eqn:L.
    + constructor; [constructor; assumption|]. constructor. exact L.
    + assert (Hra : budget_desc a r).
      { unfold budget_desc.
        pose proof (FloatOrder.gtb_negb_leb _ _ Han Hr) as G.
        rewrite L in G. simpl in G. apply FloatOrder.ltb_leb. exact G. }
      constructor; [apply IH; exact Hln|].
      destruct l as [|b l']; simpl; [constructor; exact Hra|].
      destruct (Float64.leb (USD_Production_Budget b) (USD_Production_Budget r));
        constructor; [exact Hra|].
      inversion Ha; assumption.
Qed.

Lemma insertion_sort_desc_sorted :
  forall t : list FilmP,
    no_nan (map (fun r : FilmP => USD_Production_Budget r) t) ->
    Sorted budget_desc (insertion_sort_desc t).
Proof.
  induction t as [|r t IH]; intros Hn; simpl; [constructor|].
  inversion Hn as [|? ? Hr Ht]; subst.
  apply insert_desc_sorted; [exact Hr| |apply IH; exact Ht].
  unfold no_nan in *. rewrite Forall_forall in *.
  intros x Hx. apply Ht. apply in_map_iff in Hx. destruct Hx as (y & <- & Hy).
  apply (in_map (fun r : FilmP => USD_Production_Budget r)).
  apply (Permutation_in _ (insertion_sort_desc_perm t)). exact Hy.
Qed.

Lemma zero_revenue_listings_show_highest_budgets_witness :
  top_zero_domestic insertion_sort_desc df_zero_revenue
  = [("B"%string, Float64.of_Z 70); ("F"%string, Float64.of_Z 60);
     ("D"%string, Float64.of_Z 50); ("H"%string, Float64.of_Z 50);
     ("G"%string, Float64.of_Z 40)] /\
  highest_budgets
    (head 5 (insertion_sort_desc (zero_domestic df_zero_revenue)))
    (skipn 5 (insertion_sort_desc (zero_domestic df_zero_revenue)))
    (zero_domestic df_zero_revenue).
Proof.
  split; [reflexivity|].
  apply (zero_revenue_listings_show_highest_budgets insertion_sort_desc
           insertion_sort_desc_perm insertion_sort_desc_sorted df_zero_revenue).
Defined.
